(** * worknow: the job-posting form and the premium panel

    A shallow embedding of the two React components of the repository
    ([JobForm] and [PremiumButton]) and of the few library operations they
    rely on (JavaScript strings, the zod checks of [jobSchema],
    react-hook-form's [handleSubmit], axios calls, toasts), followed by the
    properties of the specification that concern them. *)

From Stdlib Require Import List NArith ZArith String Ascii Bool Lia.
Import ListNotations.

Set Implicit Arguments.

(** ** JavaScript strings *)

Module JS.

(** A JavaScript string is a sequence of UTF-16 code units; [length] counts
    code units, which is what [String.prototype.length] (and hence zod's
    [min]/[max]) measures. *)
Definition jsstring := list N.

Definition emit (cp : N) : jsstring :=
  if (cp <? 65536)%N then [cp]
  else
    let v := (cp - 65536)%N in
    [(55296 + N.shiftr v 10)%N; (56320 + N.land v 1023)%N].

(** Reads a source literal (UTF-8 bytes) as the string it denotes.  [acc] is
    the code point under construction and [k] the number of continuation
    bytes still expected. *)
Fixpoint decode (s : string) (acc : N) (k : nat) : jsstring :=
  match s with
  | EmptyString => []
  | String a r =>
      let b := N_of_ascii a in
      match k with
      | O =>
          if (b <? 128)%N then b :: decode r 0%N 0
          else if (b <? 224)%N then decode r (N.land b 31) 1
          else if (b <? 240)%N then decode r (N.land b 15) 2
          else decode r (N.land b 7) 3
      | S k' =>
          let acc' := N.lor (N.shiftl acc 6) (N.land b 63) in
          match k' with
          | O => emit acc' ++ decode r 0%N 0
          | S _ => decode r acc' k'
          end
      end
  end.

Definition lit (s : string) : jsstring := decode s 0%N 0.

(** [String.prototype.startsWith], used to define [includes]. *)
Fixpoint starts_with (s p : jsstring) {struct p} : bool :=
  match p with
  | [] => true
  | c :: p' =>
      match s with
      | [] => false
      | x :: s' => (x =? c)%N && starts_with s' p'
      end
  end.

(** [String.prototype.includes]: [p] occurs in [s] as a substring. *)
Fixpoint includes (s p : jsstring) : bool :=
  starts_with s p ||
  match s with
  | [] => false
  | _ :: s' => includes s' p
  end.

(** The class [\d] of a regular expression without the [u] flag: [0-9]. *)
Definition is_digit (c : N) : bool := (48 <=? c)%N && (c <=? 57)%N.

(** *** Regular expressions

    The patterns of the source are sequences of literal characters, runs
    [\d+] (captured when written [(\d+)]) and the assertions [^] and [$]. *)
Inductive atom : Type :=
| Lit (c : N)
| Digits (capture : bool)
| Bos
| Eos.

Definition regex := list atom.

Definition lits (s : jsstring) : regex := map Lit s.

(** The run [\d+] followed by the continuation [k], with the backtracking
    discipline of the language: the run first takes as many digits as it
    can and gives them back one by one while [k] fails.  [acc] holds the
    digits taken so far. *)
Fixpoint digits (k : jsstring -> option (list jsstring)) (capture : bool)
         (s acc : jsstring) : option (list jsstring) :=
  match s with
  | [] => None
  | d :: s' =>
      if is_digit d then
        match digits k capture s' (acc ++ [d]) with
        | Some caps => Some caps
        | None =>
            if capture then option_map (cons (acc ++ [d])) (k s') else k s'
        end
      else None
  end.

(** Matching [p] at the start of [s]; [bos] tells whether [s] is the whole
    input.  The result is the list of captured groups. *)
Fixpoint match_here (p : regex) (bos : bool) (s : jsstring)
  : option (list jsstring) :=
  match p with
  | [] => Some []
  | Lit c :: p' =>
      match s with
      | [] => None
      | x :: s' => if (x =? c)%N then match_here p' false s' else None
      end
  | Digits capture :: p' => digits (match_here p' false) capture s []
  | Bos :: p' => if bos then match_here p' bos s else None
  | Eos :: p' =>
      match s with
      | [] => match_here p' bos s
      | _ :: _ => None
      end
  end.

Fixpoint search (p : regex) (bos : bool) (s : jsstring)
  : option (list jsstring) :=
  match match_here p bos s with
  | Some caps => Some caps
  | None =>
      match s with
      | [] => None
      | _ :: s' => search p false s'
      end
  end.

(** [String.prototype.match] with a pattern without the [g] flag: the
    match at the first position of [s] where the pattern matches, or
    [null].  The returned list holds the groups [match[1]], [match[2]]. *)
Definition regex_match (s : jsstring) (p : regex) : option (list jsstring) :=
  search p true s.

(** [RegExp.prototype.test]. *)
Definition regex_test (p : regex) (s : jsstring) : bool :=
  match search p true s with
  | Some _ => true
  | None => false
  end.

Definition group (caps : list jsstring) (i : nat) : jsstring :=
  nth (i - 1) caps [].

(** *** Numbers

    A number that holds an integer is written as that integer; the helpers
    below act on its absolute value. *)

(** The double nearest to a non-negative integer, ties to even: what the
    conversions of the language round to. *)
Definition round_double (x : Z) : Z :=
  if (x <? 2 ^ 53)%Z then x
  else
    let ulp := (2 ^ (Z.log2 x - 52))%Z in
    let q := (x / ulp)%Z in
    let r := (x mod ulp)%Z in
    if (2 * r <? ulp)%Z then (q * ulp)%Z
    else if (ulp <? 2 * r)%Z then ((q + 1) * ulp)%Z
    else if Z.even q then (q * ulp)%Z
    else ((q + 1) * ulp)%Z.

Fixpoint count_digits (fuel : nat) (x : Z) : Z :=
  match fuel with
  | O => 1%Z
  | S fuel' =>
      if (x <? 10)%Z then 1%Z else (1 + count_digits fuel' (x / 10))%Z
  end.

(** The number of decimal digits of a non-negative integer. *)
Definition digits_of (x : Z) : Z := count_digits (Z.to_nat (Z.log2 x)) x.

(** The decimal with [k] significant digits that converts back to [v], if
    there is one: the nearer of the two neighbours of [v], the one with the
    even significand when they are as near. *)
Definition candidate (v : Z) (k : Z) : option Z :=
  let unit := (10 ^ (digits_of v - k))%Z in
  let lo := ((v / unit) * unit)%Z in
  let hi := (lo + unit)%Z in
  let lo_ok := (round_double lo =? v)%Z in
  let hi_ok := (round_double hi =? v)%Z in
  if lo_ok && hi_ok then
    if (v - lo <? hi - v)%Z then Some lo
    else if (hi - v <? v - lo)%Z then Some hi
    else if Z.even (v / unit) then Some lo else Some hi
  else if lo_ok then Some lo
  else if hi_ok then Some hi
  else None.

(** [Number::toString] writes a number with as few significant digits as
    convert back to it; [shortest ks v] is the decimal it writes for [v],
    trying the digit counts [ks] in turn. *)
Fixpoint shortest (ks : list Z) (v : Z) : Z :=
  match ks with
  | [] => v
  | k :: ks' =>
      match candidate v k with
      | Some w => w
      | None => shortest ks' v
      end
  end.

Definition leading_digit (x : Z) : Z := (x / 10 ^ (digits_of x - 1))%Z.

(** [parseInt] applied to a number that holds an integer (a double, hence
    below [2^1024]), or to [undefined] ([None]); the result [None] stands
    for [NaN].  The argument is first converted to a string.  Below [10^21] that is its decimal
    numeral, which [parseInt] reads back.  From [10^21] on it is the
    exponent form ["d.ddde+NN"] of the shortest decimal that converts back
    to the number, of which [parseInt] reads the digit before the point:
    [parseInt(1e21)] is [1]. *)
Definition parseInt (v : option Z) : option Z :=
  match v with
  | None => None
  | Some n =>
      if (Z.abs n <? 10 ^ 21)%Z then Some n
      else Some (Z.sgn n
                 * leading_digit
                     (shortest (map Z.of_nat (seq 1 17)) (Z.abs n)))%Z
  end.

End JS.

Import JS.

(** ** Data model *)

(** The signed-in user as [useUser] returns it; only its [id] is read. *)
Record user : Type := { user_id : jsstring }.

(** An element of the array served by [GET /api/cities]. *)
Record city : Type := { city_id : Z; city_name : jsstring }.

(** An option of the city selector: [{ value: city.id, label: city.name }]. *)
Record select_option : Type := { opt_value : Z; opt_label : jsstring }.

(** The values of the form.  The four registered text inputs hold strings;
    [cityId] is [undefined] ([None]) or the [value] of the selected option,
    the integer identifier of a city. *)
Record draft : Type := {
  title : jsstring;
  salary : jsstring;
  cityId : option Z;
  phone : jsstring;
  description : jsstring
}.

(** The body of [POST /api/jobs]:
    [{ ...data, cityId: parseInt(data.cityId), userId: user.id }]. *)
Record job_payload : Type := {
  p_title : jsstring;
  p_salary : jsstring;
  p_cityId : option Z;
  p_phone : jsstring;
  p_description : jsstring;
  p_userId : jsstring
}.

(** The record the server creates; the component only passes it on. *)
Record job_record : Type := { job_id : Z; job_data : job_payload }.

Record premium_status : Type := { isPremium : bool }.

Record checkout_session : Type := { url : jsstring }.

(** The body of a refused [POST /api/jobs]: [{ error }] and/or [{ errors }]. *)
Record error_body : Type := {
  error : option jsstring;
  errors : option (list jsstring)
}.

(** What axios rejects with: [response] is absent when the request got no
    answer, and the answer may carry no [data]. *)
Record axios_error : Type := {
  response : option (option error_body);
  message : jsstring
}.

Inductive http_result (A : Type) : Type :=
| Resolved (data : A)
| Rejected (e : axios_error).
Arguments Rejected {A} e.

(** The remote service, one answer per endpoint the components call. *)
Record remote : Type := {
  api_cities : http_result (list city);
  api_jobs : job_payload -> http_result job_record;
  api_user : jsstring -> http_result premium_status;
  api_checkout : jsstring -> http_result checkout_session
}.

(** ** Effects *)

Inductive toast_kind : Type := Success | Failure.

Inductive request_body : Type :=
| JobBody (b : job_payload)
| CheckoutBody (clerkUserId : jsstring).

Inductive request : Type :=
| Get (target : jsstring)
| Post (target : jsstring) (b : request_body).

Inductive event : Type :=
| Request (r : request)
| Toast (k : toast_kind) (msg : jsstring)
| ConsoleError (label : jsstring)
| JobCreated (data : job_record)
| SetTimeout (ms : N) (navigate_to : jsstring)
| Redirect (href : jsstring).

Inductive exn : Type :=
| AxiosError (e : axios_error)
| TypeError.

Inductive completion (A : Type) : Type :=
| Normal (a : A)
| Throw (e : exn).
Arguments Throw {A} e.

(** What a component gets from its hooks and props: [useUser], the
    translation function of [useTranslation], the [onJobCreated] prop and
    the remote service.  The prop is absent ([None]) or a handler of the
    caller's; of a call of the handler the component sees how it completes:
    it returns, or it throws. *)
Record env : Type := {
  current_user : option user;
  t : string -> jsstring;
  onJobCreated : option (job_record -> completion unit);
  server : remote
}.

(** A computation over the component state [St]: how it completes, the
    state it leaves, and the events it emitted, oldest first.  An
    [await] is the sequencing of the computation that follows it. *)
Record result (St A : Type) : Type := {
  outcome : completion A;
  final : St;
  trace : list event
}.

Definition M (St A : Type) : Type := St -> result St A.

Section Monad.
Context {St : Type}.

Definition ret {A} (a : A) : M St A :=
  fun st => {| outcome := Normal a; final := st; trace := [] |}.

Definition throw {A} (e : exn) : M St A :=
  fun st => {| outcome := Throw e; final := st; trace := [] |}.

Definition bind {A B} (c : M St A) (k : A -> M St B) : M St B :=
  fun st =>
    let r := c st in
    match outcome r with
    | Normal a =>
        let r' := k a (final r) in
        {| outcome := outcome r'; final := final r';
           trace := trace r ++ trace r' |}
    | Throw e =>
        {| outcome := Throw e; final := final r; trace := trace r |}
    end.

(** [try { body } catch (error) { handler }] *)
Definition try_catch {A} (body : M St A) (handler : exn -> M St A)
  : M St A :=
  fun st =>
    let r := body st in
    match outcome r with
    | Normal a => r
    | Throw e =>
        let r' := handler e (final r) in
        {| outcome := outcome r'; final := final r';
           trace := trace r ++ trace r' |}
    end.

(** [try { body } finally { fin }]: [fin] runs either way and the
    completion of [body] is kept unless [fin] itself throws. *)
Definition try_finally {A} (body : M St A) (fin : M St unit) : M St A :=
  fun st =>
    let r := body st in
    let r' := fin (final r) in
    {| outcome := match outcome r' with
                  | Normal _ => outcome r
                  | Throw e => Throw e
                  end;
       final := final r';
       trace := trace r ++ trace r' |}.

(** A call that completes as [c] and touches nothing of the component. *)
Definition complete {A} (c : completion A) : M St A :=
  fun st => {| outcome := c; final := st; trace := [] |}.

Definition emit_event (e : event) : M St unit :=
  fun st => {| outcome := Normal tt; final := st; trace := [e] |}.

Definition modify (f : St -> St) : M St unit :=
  fun st => {| outcome := Normal tt; final := f st; trace := [] |}.

Definition get : M St St :=
  fun st => {| outcome := Normal st; final := st; trace := [] |}.

(** [Array.prototype.forEach] *)
Fixpoint forEach {A} (l : list A) (f : A -> M St unit) : M St unit :=
  match l with
  | [] => ret tt
  | x :: l' => bind (f x) (fun _ => forEach l' f)
  end.

(** [axios.get] and [axios.post]: the request goes out and the promise
    resolves with the answer's data or rejects. *)
Definition settle {A} (answer : http_result A) : M St A :=
  match answer with
  | Resolved data => ret data
  | Rejected e => throw (AxiosError e)
  end.

Definition axios_get {A} (target : jsstring) (answer : http_result A)
  : M St A :=
  bind (emit_event (Request (Get target))) (fun _ => settle answer).

Definition axios_post {A} (target : jsstring) (b : request_body)
           (answer : http_result A) : M St A :=
  bind (emit_event (Request (Post target b))) (fun _ => settle answer).

Definition toast_success (msg : jsstring) : M St unit :=
  emit_event (Toast Success msg).

Definition toast_error (msg : jsstring) : M St unit :=
  emit_event (Toast Failure msg).

Definition console_error (label : jsstring) : M St unit :=
  emit_event (ConsoleError label).

End Monad.

Declare Scope js_scope.
Delimit Scope js_scope with js.
Notation "x <- c ;; k" := (bind c (fun x => k))
  (at level 61, c at next level, right associativity) : js_scope.
Notation "c ;; k" := (bind c (fun _ => k))
  (at level 61, right associativity) : js_scope.
Open Scope js_scope.

(** The toasts and the requests among the events of a run. *)
Definition toasts (tr : list event) : list (toast_kind * jsstring) :=
  flat_map (fun e => match e with Toast k m => [(k, m)] | _ => [] end) tr.

Definition requests (tr : list event) : list request :=
  flat_map (fun e => match e with Request r => [r] | _ => [] end) tr.

Definition timers (tr : list event) : list (N * jsstring) :=
  flat_map (fun e => match e with SetTimeout ms to => [(ms, to)] | _ => [] end)
           tr.

(** ** zod *)

Module Zod.

(** The checks chained on [z.string()] in the source, with their messages. *)
Inductive string_check : Type :=
| Min (n : nat) (msg : jsstring)
| Max (n : nat) (msg : jsstring)
| Regex (re : regex) (msg : jsstring).

Definition fails (c : string_check) (v : jsstring) : bool :=
  match c with
  | Min n _ => List.length v <? n
  | Max n _ => n <? List.length v
  | Regex re _ => negb (regex_test re v)
  end.

Definition msg_of (c : string_check) : jsstring :=
  match c with
  | Min _ msg | Max _ msg | Regex _ msg => msg
  end.

(** [z.string()...] on a string: the checks run in the order they were
    chained and every failing one adds an issue. *)
Definition string_ (checks : list string_check) (v : jsstring)
  : list jsstring :=
  map msg_of (filter (fun c => fails c v) checks).

(** [z.number({ required_error })] on a number or [undefined]. *)
Definition number_ (required_error : jsstring) (v : option Z)
  : list jsstring :=
  match v with
  | None => [required_error]
  | Some _ => []
  end.

End Zod.

(** ** The job-posting form *)

Module JobForm.

Inductive field : Type := Title | Salary | CityId | Phone | Description.

Definition fields : list field := [Title; Salary; CityId; Phone; Description].

Definition digits_only : regex := [Bos; Digits false; Eos].

(** [jobSchema]: the issues it raises on a draft, field by field. *)
Definition jobSchema (f : field) (data : draft) : list jsstring :=
  match f with
  | Title =>
      Zod.string_ [Zod.Min 3 (lit "Минимум 3 символа");
                   Zod.Max 100 (lit "Максимум 100 символов")] (title data)
  | Salary =>
      Zod.string_ [Zod.Regex digits_only (lit "Можно вводить только цифры")]
                  (salary data)
  | CityId => Zod.number_ (lit "Выберите город") (cityId data)
  | Phone =>
      Zod.string_ [Zod.Regex digits_only (lit "Можно вводить только цифры");
                   Zod.Min 7 (lit "Минимум 7 цифр")] (phone data)
  | Description =>
      Zod.string_ [Zod.Min 10 (lit "Минимум 10 символов");
                   Zod.Max 2000 (lit "Максимум 2000 символов")]
                  (description data)
  end.

(** [formState.errors]: at most one message per field. *)
Record field_errors : Type := {
  e_title : option jsstring;
  e_salary : option jsstring;
  e_cityId : option jsstring;
  e_phone : option jsstring;
  e_description : option jsstring
}.

Definition error_of (e : field_errors) (f : field) : option jsstring :=
  match f with
  | Title => e_title e
  | Salary => e_salary e
  | CityId => e_cityId e
  | Phone => e_phone e
  | Description => e_description e
  end.

Definition no_errors : field_errors :=
  {| e_title := None; e_salary := None; e_cityId := None; e_phone := None;
     e_description := None |}.

(** [zodResolver(jobSchema)]: the parsed data when no issue is raised,
    otherwise the first issue of every field that has one. *)
Definition zodResolver (schema : field -> draft -> list jsstring)
           (data : draft) : draft + field_errors :=
  if forallb (fun f => match schema f data with [] => true | _ => false end)
             fields
  then inl data
  else inr {| e_title := hd_error (schema Title data);
              e_salary := hd_error (schema Salary data);
              e_cityId := hd_error (schema CityId data);
              e_phone := hd_error (schema Phone data);
              e_description := hd_error (schema Description data) |}.

(** The state of the component: the form ([useForm]) and the two
    [useState] cells. *)
Record state : Type := {
  values : draft;
  form_errors : field_errors;
  cities : list select_option;
  loading : bool
}.

Definition defaultValues : draft :=
  {| title := lit ""; salary := lit ""; cityId := None; phone := lit "";
     description := lit "" |}.

Definition initial : state :=
  {| values := defaultValues; form_errors := no_errors; cities := [];
     loading := true |}.

Definition setCities (cs : list select_option) : M state unit :=
  modify (fun st => {| values := values st; form_errors := form_errors st;
                       cities := cs; loading := loading st |}).

Definition setLoading (b : bool) : M state unit :=
  modify (fun st => {| values := values st; form_errors := form_errors st;
                       cities := cities st; loading := b |}).

Definition setErrors (e : field_errors) : M state unit :=
  modify (fun st => {| values := values st; form_errors := e;
                       cities := cities st; loading := loading st |}).

(** [reset()] of [useForm]: back to [defaultValues], errors cleared. *)
Definition reset : M state unit :=
  modify (fun st => {| values := defaultValues; form_errors := no_errors;
                       cities := cities st; loading := loading st |}).

(** [setValue('cityId', option?.value)] *)
Definition setValue_cityId (v : option Z) : M state unit :=
  modify (fun st =>
            {| values := {| title := title (values st);
                            salary := salary (values st);
                            cityId := v;
                            phone := phone (values st);
                            description := description (values st) |};
               form_errors := form_errors st;
               cities := cities st; loading := loading st |}).

Definition fetchCities (e : env) : M state unit :=
  try_finally
    (try_catch
       (response <- axios_get (lit "http://localhost:3001/api/cities")
                              (api_cities (server e)) ;;
        let formattedCities :=
          map (fun c => {| opt_value := city_id c; opt_label := city_name c |})
              response in
        setCities formattedCities)
       (fun _ =>
          console_error (lit "Ошибка получения городов:") ;;
          toast_error (lit "Не удалось загрузить города!")))
    (setLoading false).

Definition rate_limit_marker : jsstring :=
  lit "Вы сможете опубликовать новое объявление".

Definition quota_marker : jsstring := lit "Вы уже разместили 10 объявлений".

Definition quota_message : jsstring :=
  lit "Достигнут лимит в 10 вакансий. Удалите одно из них, прежде чем создать новое.".

Definition generic_message : jsstring :=
  lit "Ошибка при создании объявления. Попробуйте позже.".

(** [/через (\d+)м (\d+)с/] *)
Definition wait_pattern : regex :=
  lits (lit "через ") ++ [Digits true] ++ lits (lit "м ") ++ [Digits true]
       ++ lits (lit "с").

(** [error.response && error.response.data] *)
Definition response_data (err : exn) : option error_body :=
  match err with
  | AxiosError e =>
      match response e with
      | Some (Some data) => Some data
      | _ => None
      end
  | TypeError => None
  end.

(** The condition [if (x)] on a string or [undefined]: the empty string is
    falsy like [undefined]. *)
Definition truthy (x : option jsstring) : option jsstring :=
  match x with
  | Some [] | None => None
  | Some s => Some s
  end.

(** The [catch (error)] block of [onSubmit]. *)
Definition onSubmit_catch (err : exn) : M state unit :=
  console_error (lit "Ошибка при создании объявления:") ;;
  match response_data err with
  | Some body =>
      match truthy (error body) with
      | Some errorMessage =>
          if includes errorMessage rate_limit_marker then
            match regex_match errorMessage wait_pattern with
            | Some m =>
                let minutesLeft := group m 1 in
                let secondsLeft := group m 2 in
                toast_error
                  (lit "Подождите " ++ minutesLeft ++ lit " мин "
                     ++ secondsLeft
                     ++ lit " сек перед созданием нового объявления.")
            | None => toast_error errorMessage
            end
          else if includes errorMessage quota_marker then
            toast_error quota_message
          else toast_error errorMessage
      | None =>
          match errors body with
          | Some errs => forEach errs (fun err' => toast_error err')
          | None => toast_error generic_message
          end
      end
  | None => toast_error generic_message
  end.

(** [{ ...data, cityId: parseInt(data.cityId), userId: user.id }] *)
Definition payload_of (data : draft) (u : user) : job_payload :=
  {| p_title := title data;
     p_salary := salary data;
     p_cityId := parseInt (cityId data);
     p_phone := phone data;
     p_description := description data;
     p_userId := user_id u |}.

Definition onSubmit (e : env) (data : draft) : M state unit :=
  match current_user e with
  | None => toast_error (lit "Вы должны быть авторизованы!")
  | Some u =>
      try_catch
        (response <-
           axios_post (lit "http://localhost:3001/api/jobs")
                      (JobBody (payload_of data u))
                      (api_jobs (server e) (payload_of data u)) ;;
         toast_success (lit "Объявление успешно создано!") ;;
         reset ;;
         match onJobCreated e with
         | Some handler =>
             emit_event (JobCreated response) ;; complete (handler response)
         | None => ret tt
         end ;;
         emit_event (SetTimeout 2000 (lit "/")))
        onSubmit_catch
  end.

(** [handleSubmit(onValid)] of react-hook-form: the resolver runs on the
    current values; [onValid] is called with the parsed data only when it
    raises no error, otherwise the errors go to [formState.errors]. *)
Definition handleSubmit (onValid : draft -> M state unit) : M state unit :=
  st <- get ;;
  match zodResolver jobSchema (values st) with
  | inl data => setErrors no_errors ;; onValid data
  | inr errs => setErrors errs
  end.

(** *** The rendered form *)

Inductive element : Type :=
| label (htmlFor : string) (text : jsstring)
| input (id : string) (className : string) (placeholder : jsstring)
| textarea (id : string) (className : string) (placeholder : jsstring)
| Skeleton
| Select (options : list select_option) (value : option select_option)
| p (className : string) (text : jsstring).

Definition border (err : option jsstring) : string :=
  match err with
  | Some _ => "border-red-500"
  | None => "border-gray-300"
  end.

(** [{errors.x && <p className="text-red-500 text-sm mt-1">{errors.x.message}</p>}] *)
Definition error_line (err : option jsstring) : list element :=
  match err with
  | Some msg => [p "text-red-500 text-sm mt-1" msg]
  | None => []
  end.

(** The children of the [<div className="mb-4">] of each field. *)
Definition block (e : env) (st : state) (f : field) : list element :=
  let errs := form_errors st in
  match f with
  | Title =>
      [label "title" (t e "job_title");
       input "title"
             ("bg-white w-full border px-3 py-2 rounded " ++ border (e_title errs))%string
             (t e "write_job_title")]
        ++ error_line (e_title errs)
  | Salary =>
      [label "salary" (t e "salary_per_hour");
       input "salary"
             ("bg-white w-full border px-3 py-2 rounded " ++ border (e_salary errs))%string
             (t e "write_salary")]
        ++ error_line (e_salary errs)
  | CityId =>
      [label "cityId" (t e "location");
       if loading st then Skeleton
       else Select (cities st)
                   (find (fun c => match cityId (values st) with
                                   | Some v => (opt_value c =? v)%Z
                                   | None => false
                                   end) (cities st))]
        ++ error_line (e_cityId errs)
  | Phone =>
      [label "phone" (t e "phone_number");
       input "phone"
             ("bg-white w-full border px-3 py-2 rounded " ++ border (e_phone errs))%string
             (t e "write_phone_number")]
        ++ error_line (e_phone errs)
  | Description =>
      [label "description" (t e "description");
       textarea "description"
                "bg-white w-full border px-3 py-2 rounded border-gray-300"
                (t e "write_job_description")]
  end.

Definition render (e : env) (st : state) : list (list element) :=
  map (block e st) fields.

(** The validation messages a block shows. *)
Definition messages (b : list element) : list jsstring :=
  flat_map (fun el => match el with p _ msg => [msg] | _ => [] end) b.

End JobForm.

(** ** The premium panel *)

Module PremiumButton.

Record state : Type := { is_premium : bool }.

(** [useState(false)] *)
Definition initial : state := {| is_premium := false |}.

Definition setIsPremium (b : bool) : M state unit :=
  modify (fun _ => {| is_premium := b |}).

Definition fetchUserPremiumStatus (e : env) : M state unit :=
  match current_user e with
  | None => ret tt
  | Some u =>
      try_catch
        (response <-
           axios_get (lit "http://localhost:3001/api/user/" ++ user_id u)
                     (api_user (server e) (user_id u)) ;;
         setIsPremium (isPremium response))
        (fun _ => console_error (lit "Ошибка получения статуса Premium:"))
  end.

(** Reading [user.id] throws when [user] is [null]. *)
Definition user_id_of (u : option user) : M state jsstring :=
  match u with
  | Some u => ret (user_id u)
  | None => throw TypeError
  end.

Definition handleCheckout (e : env) : M state unit :=
  try_catch
    (clerkUserId <- user_id_of (current_user e) ;;
     response <-
       axios_post (lit "http://localhost:3001/api/payments/create-checkout-session")
                  (CheckoutBody clerkUserId)
                  (api_checkout (server e) clerkUserId) ;;
     emit_event (Redirect (url response)))
    (fun _ => toast_error (t e "payment_error")).

(** The bottom of the sheet:
    [isPremium ? t("purchased") : <button onClick={handleCheckout}>...]. *)
Inductive footer : Type :=
| purchased_label (text : jsstring)
| purchase_button (className : string) (text : jsstring).

Record view : Type := {
  trigger_class : string;
  trigger_text : jsstring;
  sheet_footer : footer
}.

Definition render (e : env) (st : state) : view :=
  {| trigger_class :=
       ("btn " ++ (if is_premium st then "btn-primary" else "btn-warning"))%string;
     trigger_text :=
       if is_premium st then t e "premium_active" else t e "premium";
     sheet_footer :=
       if is_premium st then purchased_label (t e "purchased")
       else purchase_button "btn btn-primary w-full py-3 text-lg"
                            (t e "purchase") |}.

End PremiumButton.

(** ** The constraints of the data model, as the specification words them *)

Module Constraints.

Import JobForm.

(** A string of digits: not empty, every character in [0-9]. *)
Definition all_digits (s : jsstring) : bool :=
  match s with
  | [] => false
  | _ :: _ => forallb is_digit s
  end.

Definition between (lo hi : nat) (s : jsstring) : bool :=
  (lo <=? List.length s) && (List.length s <=? hi).

(** Title 3-100 characters, salary all digits, cityId an integer, phone all
    digits with at least 7 of them, description 10-2000 characters. *)
Definition constraint_ok (f : field) (d : draft) : bool :=
  match f with
  | Title => between 3 100 (title d)
  | Salary => all_digits (salary d)
  | CityId => match cityId d with Some _ => true | None => false end
  | Phone => all_digits (phone d) && (7 <=? List.length (phone d))
  | Description => between 10 2000 (description d)
  end.

Definition satisfies_constraints (d : draft) : bool :=
  forallb (fun f => constraint_ok f d) fields.

End Constraints.

(** ** Sample inputs *)

Module Sample.

Import JobForm.

Definition alice : user := {| user_id := lit "user_2abc" |}.

Definition cook : draft :=
  {| title := lit "Повар"; salary := lit "50"; cityId := Some 3%Z;
     phone := lit "0501234567";
     description := lit "Требуется повар в кафе, полный день." |}.

(** The same posting with a description of five characters. *)
Definition terse : draft :=
  {| title := title cook; salary := salary cook; cityId := cityId cook;
     phone := phone cook; description := lit "Повар" |}.

Definition created (b : job_payload) : job_record :=
  {| job_id := 17; job_data := b |}.

Definition refusal (b : option (option error_body)) : axios_error :=
  {| response := b; message := lit "Request failed with status code 400" |}.

Definition i18n (key : string) : jsstring := lit key.

(** A service that accepts everything. *)
Definition accepting : remote :=
  {| api_cities := Resolved [{| city_id := 3; city_name := lit "Хайфа" |}];
     api_jobs := fun b => Resolved (created b);
     api_user := fun _ => Resolved {| isPremium := true |};
     api_checkout := fun _ => Resolved {| url := lit "https://pay.example/s" |} |}.

(** A service that refuses every call, job creation with [body]. *)
Definition refusing (b : option (option error_body)) : remote :=
  {| api_cities := Rejected (refusal None);
     api_jobs := fun _ => Rejected (refusal b);
     api_user := fun _ => Rejected (refusal None);
     api_checkout := fun _ => Rejected (refusal None) |}.

Definition signed_in (srv : remote) : env :=
  {| current_user := Some alice; t := i18n;
     onJobCreated := Some (fun _ => Normal tt); server := srv |}.

Definition signed_out (srv : remote) : env :=
  {| current_user := None; t := i18n;
     onJobCreated := Some (fun _ => Normal tt); server := srv |}.

Definition with_error (msg : jsstring) : option (option error_body) :=
  Some (Some {| error := Some msg; errors := None |}).

(** Refusal messages. *)
Definition rate_limited : jsstring :=
  lit "Вы сможете опубликовать новое объявление через 5м 30с.".

Definition two_waits : jsstring :=
  lit "Вы сможете опубликовать новое объявление через 1м 2с, а не через 5м 30с".

Definition quota_with_wait : jsstring :=
  lit "Вы уже разместили 10 объявлений. Попробуйте через 5м 30с".

Definition both_markers : jsstring :=
  lit "Вы сможете опубликовать новое объявление позже. Вы уже разместили 10 объявлений.".

Definition quota_only : jsstring :=
  lit "Вы уже разместили 10 объявлений. Удалите одно из них.".

(** A refusal that carries both an [error] string and an [errors] list. *)
Definition mixed_body : error_body :=
  {| error := Some both_markers; errors := Some [lit "Неверный телефон"] |}.

Definition editing (d : draft) : state :=
  {| values := d; form_errors := no_errors; cities := []; loading := false |}.

End Sample.

(** ** Auxiliary notions *)

(** The pattern [p] has no literal [c]. *)
Definition avoids (c : N) (p : regex) : bool :=
  forallb (fun a => match a with Lit x => negb (x =? c)%N | _ => true end) p.

(** The handler of [onJobCreated], if there is one, returns when it is
    called with [data]. *)
Definition callback_returns (e : env) (data : job_record) : Prop :=
  match onJobCreated e with
  | Some handler => handler data = Normal tt
  | None => True
  end.

(** The event of the call of [onJobCreated], when the prop is supplied. *)
Definition callback_events (e : env) (data : job_record) : list event :=
  match onJobCreated e with
  | Some _ => [JobCreated data]
  | None => []
  end.

(** A schema accepts a value when it raises no issue. *)
Definition accepted (issues : list jsstring) : bool :=
  match issues with
  | [] => true
  | _ :: _ => false
  end.

(** ** Observations on what is rendered *)

Module Shown.

Import PremiumButton.

Definition is_purchase_action (f : footer) : bool :=
  match f with
  | purchase_button _ _ => true
  | purchased_label _ => false
  end.

Definition is_active_label (f : footer) : bool :=
  match f with
  | purchased_label _ => true
  | purchase_button _ _ => false
  end.

End Shown.

(** ** Observations on the rendered form *)

Module FormView.

Import JobForm.

(** The city selector of a block, when it is rendered: its options and the
    option it shows as selected ([None] for [null]). *)
Definition selector (b : list element)
  : option (list select_option * option select_option) :=
  hd_error
    (flat_map (fun el => match el with Select os v => [(os, v)] | _ => [] end)
              b).

Definition shows_skeleton (b : list element) : bool :=
  existsb (fun el => match el with Skeleton => true | _ => false end) b.

(** The [className] of the text controls of a block. *)
Definition class_names (b : list element) : list string :=
  flat_map (fun el => match el with
                      | input _ c _ | textarea _ c _ => [c]
                      | _ => []
                      end) b.

End FormView.

(** ** More sample inputs *)

Module MoreSamples.

Import JobForm Sample.

Definition eilat : city := {| city_id := 8; city_name := lit "Эйлат" |}.

Definition towns : list city :=
  [{| city_id := 3; city_name := lit "Хайфа" |};
   {| city_id := 5; city_name := lit "Тель-Авив" |};
   eilat].

(** A service that accepts everything and serves [towns]. *)
Definition serving_towns : remote :=
  {| api_cities := Resolved towns;
     api_jobs := api_jobs accepting;
     api_user := api_user accepting;
     api_checkout := api_checkout accepting |}.

(** A refusal that only carries a list of field errors. *)
Definition field_errors_body : error_body :=
  {| error := None;
     errors := Some [lit "Неверный телефон"; lit "Слишком короткое описание"] |}.


(** A city whose id the service serves as [1e21]. *)
Definition far_city : draft :=
  {| title := title cook; salary := salary cook;
     cityId := Some (10 ^ 21)%Z; phone := phone cook;
     description := description cook |}.

(** A rate-limit refusal without a wait time. *)
Definition rate_limited_later : jsstring :=
  lit "Вы сможете опубликовать новое объявление позже.".

End MoreSamples.

(** * Properties *)

(** ** The string operations on sample inputs *)

Example lit_ascii : lit "a1 " = [97; 49; 32]%N.
Proof. reflexivity. Qed.

Example lit_cyrillic : lit "через" = [1095; 1077; 1088; 1077; 1079]%N.
Proof. reflexivity. Qed.

Example lit_astral : lit "😀" = [55357; 56832]%N.
Proof. reflexivity. Qed.

Example includes_samples :
  map (includes (lit "Вы уже разместили 10 объявлений."))
      [lit "10"; lit ""; lit "разместили 10"; lit "11"; lit "объявлений.."]
  = [true; true; true; false; false].
Proof. reflexivity. Qed.

Example regex_match_first :
  regex_match (lit "a: через 12м 05с, через 1м 2с.") JobForm.wait_pattern
  = Some [lit "12"; lit "05"].
Proof. reflexivity. Qed.

Example regex_match_none :
  map (fun s => regex_match s JobForm.wait_pattern)
      [lit "через м 5с"; lit "через 5 м 30с"; lit "через 5м 30"; lit ""]
  = [None; None; None; None].
Proof. reflexivity. Qed.

Example regex_test_digits :
  map (regex_test JobForm.digits_only)
      [lit "0123456789"; lit ""; lit "12a"; lit "a12"; lit "1 2"; lit "７"]
  = [true; false; false; false; false; false].
Proof. reflexivity. Qed.

Example jobSchema_first_issue :
  JobForm.jobSchema JobForm.Phone
    {| title := []; salary := []; cityId := None; phone := lit "12a";
       description := [] |}
  = [lit "Можно вводить только цифры"; lit "Минимум 7 цифр"].
Proof. reflexivity. Qed.

(** ** Strings and patterns *)

Section StringFacts.

Lemma starts_with_app (p s c : jsstring) :
  starts_with s p = true -> starts_with (s ++ c) p = true.
Proof.
  revert s. induction p as [|x p IH]; intros s H; [reflexivity|].
  destruct s as [|y s]; simpl in *; [discriminate|].
  apply andb_true_iff in H. destruct H as [H1 H2].
  rewrite H1. simpl. now apply IH.
Qed.

Lemma includes_unfold (s p : jsstring) :
  includes s p =
  starts_with s p || match s with [] => false | _ :: s' => includes s' p end.
Proof. destruct s; reflexivity. Qed.

Lemma includes_app_l (s c p : jsstring) :
  includes s p = true -> includes (s ++ c) p = true.
Proof.
  induction s as [|x s IH]; intros H.
  - simpl in H. rewrite orb_false_r in H.
    rewrite includes_unfold.
    now rewrite (starts_with_app p [] c H).
  - rewrite includes_unfold in H. apply orb_true_iff in H.
    rewrite includes_unfold. apply orb_true_iff.
    destruct H as [H|H].
    + left. now apply (starts_with_app p (x :: s) c).
    + right. simpl. now apply IH.
Qed.

Lemma includes_app_r (a s p : jsstring) :
  includes s p = true -> includes (a ++ s) p = true.
Proof.
  intros H. induction a as [|x a IH]; [exact H|].
  simpl. rewrite IH. apply orb_true_r.
Qed.

Lemma includes_middle (a s c p : jsstring) :
  includes s p = true -> includes (a ++ s ++ c) p = true.
Proof. intros H. now apply includes_app_r, includes_app_l. Qed.

Lemma includes_nonempty (s p : jsstring) :
  p <> [] -> includes s p = true -> s <> [].
Proof.
  intros Hp H ->. destruct p; [now apply Hp|discriminate].
Qed.

(** On [\d+$] the backtracking run succeeds exactly on the non-empty
    strings of digits. *)
Lemma digits_eos (s acc : jsstring) :
  digits (match_here [Eos] false) false s acc =
  if Constraints.all_digits s then Some [] else None.
Proof.
  revert acc. induction s as [|d s IH]; intros acc; [reflexivity|].
  simpl. destruct (is_digit d); [|reflexivity].
  rewrite IH. destruct s as [|x s]; [reflexivity|].
  simpl. destruct (is_digit x && forallb is_digit s); reflexivity.
Qed.

Lemma search_bos_later (p : regex) (s : jsstring) :
  search (Bos :: p) false s = None.
Proof. induction s as [|x s IH]; simpl; [reflexivity|exact IH]. Qed.

(** [/^\d+$/.test(s)] holds exactly of the strings of digits. *)
Lemma regex_test_digits_only (s : jsstring) :
  regex_test JobForm.digits_only s = Constraints.all_digits s.
Proof.
  unfold regex_test, JobForm.digits_only.
  destruct s as [|x s].
  - reflexivity.
  - cbn [search match_here]. rewrite digits_eos.
    destruct (Constraints.all_digits (x :: s)); [reflexivity|].
    now rewrite search_bos_later.
Qed.

(** A pattern that has no literal [c] cannot match across a [c]: if it
    fails on [u] it fails on [u] followed by [c] and anything. *)
Lemma digits_stop (k : jsstring -> option (list jsstring)) (capture : bool)
      (c : N) (rest u acc : jsstring) :
  is_digit c = false ->
  (forall v, k v = None -> k (v ++ c :: rest) = None) ->
  digits k capture u acc = None ->
  digits k capture (u ++ c :: rest) acc = None.
Proof.
  intros Hc Hk. revert acc.
  induction u as [|d u IH]; intros acc H; simpl in *.
  - now rewrite Hc.
  - destruct (is_digit d); [|reflexivity].
    destruct (digits k capture u (acc ++ [d])) eqn:E; [discriminate|].
    rewrite (IH _ E).
    destruct capture.
    + destruct (k u) eqn:Ek; [discriminate|]. now rewrite (Hk _ Ek).
    + now apply Hk.
Qed.

Lemma match_here_stop (c : N) (rest : jsstring) (p : regex) :
  is_digit c = false -> avoids c p = true ->
  forall bos u, match_here p bos u = None ->
                match_here p bos (u ++ c :: rest) = None.
Proof.
  intros Hc. induction p as [|a p IH]; intros Hp bos u H.
  - discriminate.
  - simpl in Hp. apply andb_true_iff in Hp. destruct Hp as [Ha Hp].
    specialize (IH Hp).
    destruct a as [x|capture| |]; simpl in *.
    + destruct u as [|y u]; simpl.
      * rewrite N.eqb_sym. now destruct (x =? c)%N.
      * destruct (y =? x)%N; [now apply IH|reflexivity].
    + apply digits_stop; auto.
    + destruct bos; [now apply IH|reflexivity].
    + destruct u as [|y u]; reflexivity.
Qed.

End StringFacts.

(** ** Validation *)

Section Validation.

Import JobForm Constraints.

Lemma min_max_between (lo hi : nat) (a b v : jsstring) :
  accepted (Zod.string_ [Zod.Min lo a; Zod.Max hi b] v) = between lo hi v.
Proof.
  unfold Zod.string_, between. cbn [filter Zod.fails].
  destruct (Nat.ltb_spec (List.length v) lo), (Nat.ltb_spec hi (List.length v)),
    (Nat.leb_spec lo (List.length v)), (Nat.leb_spec (List.length v) hi);
    cbn; reflexivity || lia.
Qed.

Lemma digits_accepted (a v : jsstring) :
  accepted (Zod.string_ [Zod.Regex digits_only a] v) = all_digits v.
Proof.
  unfold Zod.string_. cbn [filter Zod.fails].
  rewrite regex_test_digits_only. now destruct (all_digits v).
Qed.

Lemma digits_min_accepted (n : nat) (a b v : jsstring) :
  accepted (Zod.string_ [Zod.Regex digits_only a; Zod.Min n b] v)
  = all_digits v && (n <=? List.length v).
Proof.
  unfold Zod.string_. cbn [filter Zod.fails].
  rewrite regex_test_digits_only.
  destruct (all_digits v), (Nat.ltb_spec (List.length v) n),
    (Nat.leb_spec n (List.length v)); cbn; reflexivity || lia.
Qed.

(** [jobSchema] raises no issue on a field exactly when the field meets
    its constraint. *)
Lemma jobSchema_constraint (f : field) (d : draft) :
  accepted (jobSchema f d) = constraint_ok f d.
Proof.
  destruct f; unfold jobSchema, constraint_ok.
  - apply min_max_between.
  - apply digits_accepted.
  - now destruct (cityId d).
  - apply digits_min_accepted.
  - apply min_max_between.
Qed.

Lemma resolver_condition (d : draft) :
  forallb (fun f => match jobSchema f d with [] => true | _ :: _ => false end)
          fields
  = satisfies_constraints d.
Proof.
  unfold satisfies_constraints, fields. cbn [forallb].
  rewrite <- !jobSchema_constraint. reflexivity.
Qed.

Lemma zodResolver_valid (d : draft) :
  satisfies_constraints d = true -> zodResolver jobSchema d = inl d.
Proof.
  intros H. unfold zodResolver. now rewrite resolver_condition, H.
Qed.

Lemma zodResolver_invalid (d : draft) :
  satisfies_constraints d = false ->
  exists errs,
    zodResolver jobSchema d = inr errs
    /\ (forall f, error_of errs f = hd_error (jobSchema f d))
    /\ exists f, constraint_ok f d = false /\ error_of errs f <> None.
Proof.
  intros H. unfold zodResolver. rewrite resolver_condition, H.
  eexists. split; [reflexivity|]. split.
  - now intros [].
  - unfold satisfies_constraints in H.
    assert (E : exists f, constraint_ok f d = false).
    { destruct (existsb (fun f => negb (constraint_ok f d)) fields) eqn:Ex.
      - apply existsb_exists in Ex. destruct Ex as (f & _ & Hf).
        exists f. now destruct (constraint_ok f d).
      - exfalso. rewrite <- not_true_iff_false in H. apply H.
        apply forallb_forall. intros f Hf.
        destruct (constraint_ok f d) eqn:Ef; [reflexivity|].
        rewrite <- not_true_iff_false in Ex. exfalso. apply Ex.
        apply existsb_exists. exists f. now rewrite Ef. }
    destruct E as (f & Ef). exists f. split; [exact Ef|].
    rewrite <- jobSchema_constraint in Ef.
    destruct f; cbn [error_of e_title e_salary e_cityId e_phone e_description];
      destruct (jobSchema _ d); try discriminate; cbn; congruence.
Qed.

Lemma zodResolver_inl (d d' : draft) :
  zodResolver jobSchema d = inl d' -> d' = d.
Proof.
  unfold zodResolver. destruct (forallb _ fields); congruence.
Qed.

(** What [handleSubmit] does on each outcome of the resolver. *)
Lemma handleSubmit_valid (k : draft -> M state unit) (st : state) :
  satisfies_constraints (values st) = true ->
  handleSubmit k st =
  k (values st) {| values := values st; form_errors := no_errors;
                   cities := cities st; loading := loading st |}.
Proof.
  intros H. unfold handleSubmit.
  unfold bind at 1. cbn [get outcome final trace].
  rewrite (zodResolver_valid _ H).
  unfold bind, setErrors, modify. cbn [outcome final trace app].
  destruct (k (values st) _) as [[a|x] st' tr]; reflexivity.
Qed.

Lemma handleSubmit_invalid (k : draft -> M state unit) (st : state)
      (errs : field_errors) :
  zodResolver jobSchema (values st) = inr errs ->
  handleSubmit k st =
  {| outcome := Normal tt;
     final := {| values := values st; form_errors := errs;
                 cities := cities st; loading := loading st |};
     trace := [] |}.
Proof.
  intros H. unfold handleSubmit, bind. cbn [get outcome final trace].
  rewrite H. reflexivity.
Qed.

End Validation.

(** ** The submit handler *)

Section Submission.

Import JobForm Constraints.

Lemma forEach_toast_error (errs : list jsstring) (st : state) :
  forEach errs (fun err' => toast_error err') st =
  {| outcome := Normal tt; final := st; trace := map (Toast Failure) errs |}.
Proof.
  induction errs as [|x errs IH]; [reflexivity|].
  cbn [forEach]. unfold bind.
  change (toast_error x st)
    with {| outcome := Normal tt; final := st; trace := [Toast Failure x] |}.
  cbn beta iota delta [outcome final trace]. rewrite IH. reflexivity.
Qed.

(** The [catch] block completes normally, leaves the state alone and only
    logs to the console and shows toasts; it shows none only for a body
    with an empty [errors] list and no [error] to speak of. *)
Lemma onSubmit_catch_shape (err : exn) (st : state) :
  exists notes,
    onSubmit_catch err st =
    {| outcome := Normal tt; final := st;
       trace := ConsoleError (lit "Ошибка при создании объявления:")
                  :: map (Toast Failure) notes |}
    /\ (notes = [] ->
        exists body, response_data err = Some body
                     /\ truthy (error body) = None
                     /\ errors body = Some []).
Proof.
  unfold onSubmit_catch.
  destruct (response_data err) as [body|].
  2: { exists [generic_message]. split; [reflexivity|discriminate]. }
  destruct (truthy (error body)) as [msg|] eqn:Et.
  - destruct (includes msg rate_limit_marker).
    + destruct (regex_match msg wait_pattern) as [m|];
        eexists [_]; (split; [reflexivity|discriminate]).
    + destruct (includes msg quota_marker);
        eexists [_]; (split; [reflexivity|discriminate]).
  - destruct (errors body) as [errs|] eqn:Ee.
    + exists errs. split.
      * unfold bind, console_error, emit_event.
        cbn beta iota delta [outcome final trace].
        now rewrite forEach_toast_error.
      * intros ->. now exists body.
    + exists [generic_message]. split; [reflexivity|discriminate].
Qed.

Lemma toasts_map_toast (k : toast_kind) (notes : list jsstring) :
  toasts (map (Toast k) notes) = map (pair k) notes.
Proof. induction notes as [|n notes IH]; [reflexivity|]. cbn. now f_equal. Qed.

Lemma timers_map_toast (k : toast_kind) (notes : list jsstring) :
  timers (map (Toast k) notes) = [].
Proof. induction notes as [|n notes IH]; [reflexivity|exact IH]. Qed.

Lemma requests_map_toast (k : toast_kind) (notes : list jsstring) :
  requests (map (Toast k) notes) = [].
Proof. induction notes as [|n notes IH]; [reflexivity|exact IH]. Qed.

(** The toast of the [catch] block for a non-empty [error] string. *)
Lemma onSubmit_catch_error (err : exn) (body : error_body) (msg : jsstring)
      (st : state) :
  response_data err = Some body -> error body = Some msg -> msg <> [] ->
  onSubmit_catch err st =
  {| outcome := Normal tt; final := st;
     trace := [ConsoleError (lit "Ошибка при создании объявления:");
               Toast Failure
                 (if includes msg rate_limit_marker then
                    match regex_match msg wait_pattern with
                    | Some m =>
                        lit "Подождите " ++ group m 1 ++ lit " мин "
                          ++ group m 2
                          ++ lit " сек перед созданием нового объявления."
                    | None => msg
                    end
                  else if includes msg quota_marker then quota_message
                  else msg)] |}.
Proof.
  intros Hb He Hne. unfold onSubmit_catch. rewrite Hb, He.
  destruct msg as [|c msg]; [contradiction|].
  cbn [truthy].
  destruct (includes (c :: msg) rate_limit_marker).
  - now destruct (regex_match (c :: msg) wait_pattern).
  - now destruct (includes (c :: msg) quota_marker).
Qed.

(** A submission the server accepts: the success notification, the reset
    and the call of the handler always happen; what follows is the timer
    when the handler returned, and the [catch] block when it threw. *)
Lemma onSubmit_resolved_shape (e : env) (data : draft) (st : state)
      (u : user) (created : job_record) :
  current_user e = Some u ->
  api_jobs (server e) (payload_of data u) = Resolved created ->
  exists rest,
    onSubmit e data st =
    {| outcome := Normal tt;
       final := {| values := defaultValues; form_errors := no_errors;
                   cities := cities st; loading := loading st |};
       trace := [Request (Post (lit "http://localhost:3001/api/jobs")
                               (JobBody (payload_of data u)));
                 Toast Success (lit "Объявление успешно создано!")]
                  ++ callback_events e created ++ rest |}
    /\ ((callback_returns e created
         /\ rest = [SetTimeout 2000 (lit "/")])
        \/ (~ callback_returns e created
            /\ exists notes,
                rest = ConsoleError (lit "Ошибка при создании объявления:")
                         :: map (Toast Failure) notes)).
Proof.
  intros Hu Hr. unfold onSubmit, callback_returns, callback_events.
  rewrite Hu, Hr.
  destruct (onJobCreated e) as [handler|].
  2: { eexists. split; [reflexivity|]. left. now split. }
  unfold try_catch, axios_post, bind, complete.
  cbn [settle ret emit_event toast_success reset modify outcome final trace].
  destruct (handler created) as [[]|x] eqn:Hh.
  - eexists. split; [reflexivity|]. left. now split.
  - cbn [outcome final trace app].
    destruct (onSubmit_catch_shape x
                {| values := defaultValues; form_errors := no_errors;
                   cities := cities st; loading := loading st |})
      as (notes & -> & _).
    cbn [outcome final trace].
    eexists. split; [reflexivity|]. right. split; [discriminate|].
    now exists notes.
Qed.

Lemma onSubmit_resolved (e : env) (data : draft) (st : state) (u : user)
      (created : job_record) :
  current_user e = Some u ->
  api_jobs (server e) (payload_of data u) = Resolved created ->
  callback_returns e created ->
  onSubmit e data st =
  {| outcome := Normal tt;
     final := {| values := defaultValues; form_errors := no_errors;
                 cities := cities st; loading := loading st |};
     trace := [Request (Post (lit "http://localhost:3001/api/jobs")
                             (JobBody (payload_of data u)));
               Toast Success (lit "Объявление успешно создано!")]
                ++ callback_events e created
                ++ [SetTimeout 2000 (lit "/")] |}.
Proof.
  intros Hu Hr Hcb.
  destruct (@onSubmit_resolved_shape e data st u created Hu Hr)
    as (rest & -> & Hrest).
  destruct Hrest as [(_ & ->)|(Hn & _)]; [reflexivity|contradiction].
Qed.

(** A submission the server refuses goes to the [catch] block. *)
Lemma onSubmit_rejected (e : env) (data : draft) (st : state) (u : user)
      (ax : axios_error) :
  current_user e = Some u ->
  api_jobs (server e) (payload_of data u) = Rejected ax ->
  onSubmit e data st =
  {| outcome := outcome (onSubmit_catch (AxiosError ax) st);
     final := final (onSubmit_catch (AxiosError ax) st);
     trace := Request (Post (lit "http://localhost:3001/api/jobs")
                            (JobBody (payload_of data u)))
                :: trace (onSubmit_catch (AxiosError ax) st) |}.
Proof.
  intros Hu Hr. unfold onSubmit. rewrite Hu, Hr. reflexivity.
Qed.

End Submission.

(** ** The job-posting form: validation, authentication, success *)

Section FormClaims.

Import JobForm Constraints Sample.

(** C1. For every draft that violates at least one constraint of the data
    model (title 3-100 characters, salary all digits, cityId an integer,
    phone all digits with at least 7, description 10-2000 characters),
    submitting the form issues no network call: validation fails, the
    errors of the offending fields are recorded, and the submit handler
    does not run, so that the submission emits no event at all. *)
Theorem C1_invalid_draft_no_network_call (e : env) (st : state) :
  satisfies_constraints (values st) = false ->
  let r := handleSubmit (onSubmit e) st in
  requests (trace r) = []
  /\ trace r = []
  /\ exists f, constraint_ok f (values st) = false
               /\ error_of (form_errors (final r)) f <> None.
Proof.
  intros H r.
  destruct (zodResolver_invalid _ H) as (errs & Hres & _ & f & Hf & Herr).
  subst r. rewrite (handleSubmit_invalid _ _ Hres). cbn [trace final form_errors].
  repeat split; try reflexivity. now exists f.
Qed.

Lemma C1_witness :
  satisfies_constraints (values (editing terse)) = false
  /\ let r := handleSubmit (onSubmit (signed_in accepting)) (editing terse) in
     requests (trace r) = []
     /\ trace r = []
     /\ exists f, constraint_ok f (values (editing terse)) = false
                  /\ error_of (form_errors (final r)) f <> None.
Proof.
  split; [reflexivity|].
  apply (C1_invalid_draft_no_network_call (signed_in accepting) (editing terse)).
  reflexivity.
Defined.

(** The validation message of a field is shown in its block, for the four
    fields whose block has the conditional line. *)
Lemma block_messages (e : env) (st : state) (f : field) :
  f <> Description ->
  messages (block e st f) =
  match error_of (form_errors st) f with
  | Some msg => [msg]
  | None => []
  end.
Proof.
  intros Hf. destruct f; try contradiction; cbn [block error_of].
  - now destruct (e_title (form_errors st)).
  - now destruct (e_salary (form_errors st)).
  - now destruct (loading st), (e_cityId (form_errors st)).
  - now destruct (e_phone (form_errors st)).
Qed.

(** The block of the description never shows a message. *)
Lemma description_block_silent (e : env) (st : state) :
  messages (block e st Description) = [].
Proof. reflexivity. Qed.

(** C2. A draft whose only violation is a description of five characters:
    validation records the message of the description field, and the
    rendered block of that field shows no message. *)
Theorem C2_description_message_not_shown :
  let e := signed_in accepting in
  let st := final (handleSubmit (onSubmit e) (editing terse)) in
  error_of (form_errors st) Description = Some (lit "Минимум 10 символов")
  /\ messages (block e st Description) = []
  /\ forall f, f <> Description -> error_of (form_errors st) f = None.
Proof.
  cbv zeta. split; [reflexivity|]. split; [reflexivity|].
  intros f Hf. destruct f; try reflexivity. contradiction.
Qed.

(** C3. For every draft satisfying all validation constraints, if no
    authenticated user is present at submission time, the auth-required
    notification is shown and no network call is issued. *)
Theorem C3_unauthenticated_no_network_call (e : env) (st : state) :
  satisfies_constraints (values st) = true ->
  current_user e = None ->
  let r := handleSubmit (onSubmit e) st in
  toasts (trace r) = [(Failure, lit "Вы должны быть авторизованы!")]
  /\ requests (trace r) = [].
Proof.
  intros Hv Hu r. subst r. rewrite (handleSubmit_valid _ _ Hv).
  unfold onSubmit. rewrite Hu. split; reflexivity.
Qed.

Lemma C3_witness :
  satisfies_constraints (values (editing cook)) = true
  /\ current_user (signed_out accepting) = None
  /\ let r := handleSubmit (onSubmit (signed_out accepting)) (editing cook) in
     toasts (trace r) = [(Failure, lit "Вы должны быть авторизованы!")]
     /\ requests (trace r) = [].
Proof.
  split; [reflexivity|]. split; [reflexivity|].
  apply (C3_unauthenticated_no_network_call (signed_out accepting) (editing cook));
    reflexivity.
Defined.




End FormClaims.

(** ** The job-posting form: refused submissions *)

Section FailureClaims.

Import JobForm Constraints Sample.

Lemma wait_pattern_head :
  wait_pattern =
  Lit 1095 :: (lits (lit "ерез ") ++ [Digits true] ++ lits (lit "м ")
                 ++ [Digits true] ++ lits (lit "с")).
Proof. reflexivity. Qed.

(** The first match of the wait pattern in a message whose text before
    "через 5м 30с" has none is that text, with groups "5" and "30". *)
Lemma search_wait (pre post : jsstring) (bos : bool) :
  search wait_pattern bos pre = None ->
  search wait_pattern bos (pre ++ lit "через 5м 30с" ++ post)
  = Some [lit "5"; lit "30"].
Proof.
  revert bos. induction pre as [|x pre IH]; intros bos H.
  - destruct bos; reflexivity.
  - cbn [search] in H.
    destruct (match_here wait_pattern bos (x :: pre)) eqn:E; [discriminate|].
    change ((x :: pre) ++ lit "через 5м 30с" ++ post)
      with (x :: (pre ++ lit "через 5м 30с" ++ post)).
    cbn [search]. rewrite (IH false H).
    replace (match_here wait_pattern bos
                        (x :: pre ++ lit "через 5м 30с" ++ post))
      with (@None (list jsstring)); [reflexivity|].
    symmetry. rewrite wait_pattern_head in *.
    cbn [match_here] in *.
    destruct (x =? 1095)%N; [|reflexivity].
    change (lit "через 5м 30с" ++ post)
      with (1095%N :: (lit "ерез 5м 30с" ++ post)).
    apply match_here_stop; [reflexivity|reflexivity|exact E].
Qed.

Lemma wait_text_nonempty (pre post : jsstring) :
  pre ++ lit "через 5м 30с" ++ post <> [].
Proof. destruct pre; discriminate. Qed.

(** C5, as stated, fails: a message that signals the quota and carries the
    wait text gets the fixed quota message, and a rate-limit message with
    an earlier wait text gets the minutes and seconds of that earlier
    text; neither notification contains "5". *)
Lemma C5_counterexample :
  (includes quota_with_wait (lit "через 5м 30с") = true
   /\ toasts (trace (onSubmit (signed_in (refusing (with_error quota_with_wait)))
                              cook (editing cook)))
      = [(Failure, quota_message)]
   /\ includes quota_message (lit "5") = false)
  /\ (includes two_waits (lit "через 5м 30с") = true
      /\ toasts (trace (onSubmit (signed_in (refusing (with_error two_waits)))
                                 cook (editing cook)))
         = [(Failure,
             lit "Подождите 1 мин 2 сек перед созданием нового объявления.")]
      /\ includes
           (lit "Подождите 1 мин 2 сек перед созданием нового объявления.")
           (lit "5") = false).
Proof.
  split; (split; [|split]); vm_compute; reflexivity.
Qed.

(** C5, amended. For every refused submission whose [error] string contains
    "через 5м 30с" with no match of the wait pattern in the text before
    it, and which carries the rate-limit marker or does not carry the quota
    marker, the one notification shown contains "5" and "30"; with the
    rate-limit marker it is the formatted wait-time message. *)
Theorem C5_wait_time_notification (e : env) (data : draft) (st : state)
        (u : user) (ax : axios_error) (body : error_body)
        (pre post : jsstring) :
  let msg := pre ++ lit "через 5м 30с" ++ post in
  current_user e = Some u ->
  api_jobs (server e) (payload_of data u) = Rejected ax ->
  response ax = Some (Some body) ->
  error body = Some msg ->
  regex_match pre wait_pattern = None ->
  includes msg rate_limit_marker = true \/ includes msg quota_marker = false ->
  exists note,
    toasts (trace (onSubmit e data st)) = [(Failure, note)]
    /\ includes note (lit "5") = true
    /\ includes note (lit "30") = true
    /\ (includes msg rate_limit_marker = true ->
        note = lit "Подождите 5 мин 30 сек перед созданием нового объявления.").
Proof.
  intros msg Hu Hr Hresp Herr Hpre Hkind.
  rewrite (onSubmit_rejected _ _ _ Hu Hr). cbn [trace].
  assert (Hd : response_data (AxiosError ax) = Some body)
    by (cbn [response_data]; now rewrite Hresp).
  rewrite (onSubmit_catch_error _ _ Hd Herr (wait_text_nonempty pre post)).
  cbn [trace].
  assert (Hm : regex_match msg wait_pattern = Some [lit "5"; lit "30"])
    by (apply search_wait; exact Hpre).
  rewrite Hm.
  destruct (includes msg rate_limit_marker) eqn:Erate.
  - eexists. split; [reflexivity|].
    split; [|split; [|intros _]]; vm_compute; reflexivity.
  - destruct Hkind as [Hk|Hk]; [discriminate|]. rewrite Hk.
    exists msg. split; [reflexivity|].
    split; [|split; [|discriminate]];
      unfold msg; apply includes_middle; vm_compute; reflexivity.
Qed.

Lemma C5_witness :
  current_user (signed_in (refusing (with_error rate_limited))) = Some alice
  /\ api_jobs (server (signed_in (refusing (with_error rate_limited))))
              (payload_of cook alice)
     = Rejected (refusal (with_error rate_limited))
  /\ response (refusal (with_error rate_limited))
     = Some (Some {| error := Some rate_limited; errors := None |})
  /\ error {| error := Some rate_limited; errors := None |}
     = Some (lit "Вы сможете опубликовать новое объявление "
               ++ lit "через 5м 30с" ++ lit ".")
  /\ regex_match (lit "Вы сможете опубликовать новое объявление ") wait_pattern
     = None
  /\ exists note,
      toasts (trace (onSubmit (signed_in (refusing (with_error rate_limited)))
                              cook (editing cook)))
      = [(Failure, note)]
      /\ includes note (lit "5") = true
      /\ includes note (lit "30") = true
      /\ (includes (lit "Вы сможете опубликовать новое объявление "
                      ++ lit "через 5м 30с" ++ lit ".")
                   rate_limit_marker = true ->
          note = lit "Подождите 5 мин 30 сек перед созданием нового объявления.").
Proof.
  do 5 (split; [vm_compute; reflexivity|]).
  apply (C5_wait_time_notification
           (signed_in (refusing (with_error rate_limited))) cook (editing cook)
           (u := alice) (ax := refusal (with_error rate_limited))
           (body := {| error := Some rate_limited; errors := None |})
           (lit "Вы сможете опубликовать новое объявление ") (lit "."));
    try (vm_compute; reflexivity).
  left. vm_compute. reflexivity.
Defined.

(** C6, as stated, fails: a message that carries the quota substring after
    the rate-limit substring is shown as it came, not replaced by the
    fixed quota message. *)
Lemma C6_counterexample :
  includes both_markers quota_marker = true
  /\ toasts (trace (onSubmit (signed_in (refusing (with_error both_markers)))
                             cook (editing cook)))
     = [(Failure, both_markers)]
  /\ both_markers <> quota_message.
Proof.
  split; [|split]; try (vm_compute; reflexivity).
  intros H. apply (f_equal (@List.length N)) in H. vm_compute in H.
  discriminate H.
Qed.

(** C6, amended. For every refused submission whose [error] string
    contains the quota substring and not the rate-limit substring, the
    fixed quota message is the one notification shown, whatever else the
    string and the body contain. *)
Theorem C6_quota_message_verbatim (e : env) (data : draft) (st : state)
        (u : user) (ax : axios_error) (body : error_body) (msg : jsstring) :
  current_user e = Some u ->
  api_jobs (server e) (payload_of data u) = Rejected ax ->
  response ax = Some (Some body) ->
  error body = Some msg ->
  includes msg quota_marker = true ->
  includes msg rate_limit_marker = false ->
  toasts (trace (onSubmit e data st))
  = [(Failure,
      lit "Достигнут лимит в 10 вакансий. Удалите одно из них, прежде чем создать новое.")].
Proof.
  intros Hu Hr Hresp Herr Hq Hrate.
  rewrite (onSubmit_rejected _ _ _ Hu Hr). cbn [trace].
  assert (Hd : response_data (AxiosError ax) = Some body)
    by (cbn [response_data]; now rewrite Hresp).
  assert (Hne : msg <> []).
  { apply (includes_nonempty (p := quota_marker)); [discriminate|exact Hq]. }
  rewrite (onSubmit_catch_error _ _ Hd Herr Hne). cbn [trace].
  rewrite Hrate, Hq. reflexivity.
Qed.

Lemma C6_witness :
  current_user (signed_in (refusing (with_error quota_only))) = Some alice
  /\ api_jobs (server (signed_in (refusing (with_error quota_only))))
              (payload_of cook alice)
     = Rejected (refusal (with_error quota_only))
  /\ response (refusal (with_error quota_only))
     = Some (Some {| error := Some quota_only; errors := None |})
  /\ error {| error := Some quota_only; errors := None |} = Some quota_only
  /\ includes quota_only quota_marker = true
  /\ includes quota_only rate_limit_marker = false
  /\ toasts (trace (onSubmit (signed_in (refusing (with_error quota_only)))
                             cook (editing cook)))
     = [(Failure,
         lit "Достигнут лимит в 10 вакансий. Удалите одно из них, прежде чем создать новое.")].
Proof.
  do 6 (split; [vm_compute; reflexivity|]).
  apply (C6_quota_message_verbatim
           (signed_in (refusing (with_error quota_only))) cook (editing cook)
           (u := alice) (ax := refusal (with_error quota_only))
           (body := {| error := Some quota_only; errors := None |})
           (msg := quota_only));
    vm_compute; reflexivity.
Defined.

(** C8. For every refused submission, whatever the refusal, the draft in
    the form is left as it was and no navigation is scheduled; the draft
    changes or a navigation is scheduled only when the draft is valid, a
    user is signed in and the server accepted the posting. *)
Theorem C8_failed_submission_keeps_draft (e : env) (st : state) :
  let r := handleSubmit (onSubmit e) st in
  (forall u ax,
      current_user e = Some u ->
      api_jobs (server e) (payload_of (values st) u) = Rejected ax ->
      values (final r) = values st /\ timers (trace r) = [])
  /\ (values (final r) <> values st \/ timers (trace r) <> [] ->
      exists u created,
        satisfies_constraints (values st) = true
        /\ current_user e = Some u
        /\ api_jobs (server e) (payload_of (values st) u) = Resolved created).
Proof.
  intros r.
  assert (Hkeep : satisfies_constraints (values st) = false ->
                  values (final r) = values st /\ timers (trace r) = []).
  { intros Hv. destruct (zodResolver_invalid _ Hv) as (errs & Hres & _).
    subst r. rewrite (handleSubmit_invalid _ _ Hres). now split. }
  assert (Hrej : forall u ax,
             current_user e = Some u ->
             api_jobs (server e) (payload_of (values st) u) = Rejected ax ->
             values (final r) = values st /\ timers (trace r) = []).
  { intros u ax Hu Hr.
    destruct (satisfies_constraints (values st)) eqn:Hv; [|now apply Hkeep].
    subst r. rewrite (handleSubmit_valid _ _ Hv).
    rewrite (onSubmit_rejected _ _ _ Hu Hr).
    destruct (onSubmit_catch_shape (AxiosError ax)
                {| values := values st; form_errors := no_errors;
                   cities := cities st; loading := loading st |})
      as (notes & -> & _).
    cbn [final trace values]. split; [reflexivity|].
    cbn. apply timers_map_toast. }
  split; [exact Hrej|].
  intros Hchg.
  destruct (satisfies_constraints (values st)) eqn:Hv.
  2: { destruct (Hkeep eq_refl) as [H1 H2]. destruct Hchg; contradiction. }
  destruct (current_user e) as [u|] eqn:Hu.
  2: { exfalso. subst r. rewrite (handleSubmit_valid _ _ Hv) in Hchg.
       unfold onSubmit in Hchg. rewrite Hu in Hchg.
       cbn in Hchg. destruct Hchg as [H|H]; now apply H. }
  destruct (api_jobs (server e) (payload_of (values st) u)) as [created|ax]
    eqn:Hr.
  - now exists u, created.
  - destruct (Hrej u ax eq_refl Hr) as [H1 H2]. destruct Hchg; contradiction.
Qed.

Lemma C8_witness :
  current_user (signed_in (refusing (with_error quota_only))) = Some alice
  /\ api_jobs (server (signed_in (refusing (with_error quota_only))))
              (payload_of (values (editing cook)) alice)
     = Rejected (refusal (with_error quota_only))
  /\ let r := handleSubmit
                (onSubmit (signed_in (refusing (with_error quota_only))))
                (editing cook) in
     values (final r) = values (editing cook) /\ timers (trace r) = [].
Proof.
  split; [reflexivity|]. split; [reflexivity|].
  apply (proj1 (C8_failed_submission_keeps_draft
                  (signed_in (refusing (with_error quota_only)))
                  (editing cook))
               alice (refusal (with_error quota_only)));
    reflexivity.
Defined.

(** C10, as stated, fails: an [error] field that holds the empty string
    does not keep the [errors] list from being consulted. *)
Lemma C10_counterexample :
  toasts (trace (onSubmit
                   (signed_in
                      (refusing
                         (Some (Some {| error := Some (lit "");
                                        errors := Some [lit "Неверный телефон"] |}))))
                   cook (editing cook)))
  = [(Failure, lit "Неверный телефон")].
Proof. vm_compute. reflexivity. Qed.

(** C10, amended. The branches of a refused submission are tried in a
    fixed order: a body with a non-empty string [error] is handled by that
    string alone, whatever its [errors] list, and within the string the
    rate-limit substring is looked for before the quota substring, so that
    a string with both gets the rate-limit treatment (the formatted wait
    time when the wait pattern matches, the string itself otherwise). *)
Theorem C10_error_branch_order (e : env) (data : draft) (st : state)
        (u : user) (ax : axios_error) (body : error_body) (msg : jsstring) :
  current_user e = Some u ->
  api_jobs (server e) (payload_of data u) = Rejected ax ->
  response ax = Some (Some body) ->
  error body = Some msg ->
  msg <> [] ->
  toasts (trace (onSubmit e data st))
  = [(Failure,
      if includes msg rate_limit_marker then
        match regex_match msg wait_pattern with
        | Some m =>
            lit "Подождите " ++ group m 1 ++ lit " мин " ++ group m 2
              ++ lit " сек перед созданием нового объявления."
        | None => msg
        end
      else if includes msg quota_marker then quota_message
      else msg)].
Proof.
  intros Hu Hr Hresp Herr Hne.
  rewrite (onSubmit_rejected _ _ _ Hu Hr). cbn [trace].
  assert (Hd : response_data (AxiosError ax) = Some body)
    by (cbn [response_data]; now rewrite Hresp).
  rewrite (onSubmit_catch_error _ _ Hd Herr Hne). reflexivity.
Qed.

Lemma C10_witness :
  current_user (signed_in (refusing (Some (Some mixed_body)))) = Some alice
  /\ api_jobs (server (signed_in (refusing (Some (Some mixed_body)))))
              (payload_of cook alice)
     = Rejected (refusal (Some (Some mixed_body)))
  /\ response (refusal (Some (Some mixed_body))) = Some (Some mixed_body)
  /\ error mixed_body = Some both_markers
  /\ both_markers <> []
  /\ toasts (trace (onSubmit (signed_in (refusing (Some (Some mixed_body))))
                             cook (editing cook)))
     = [(Failure,
         if includes both_markers rate_limit_marker then
           match regex_match both_markers wait_pattern with
           | Some m =>
               lit "Подождите " ++ group m 1 ++ lit " мин " ++ group m 2
                 ++ lit " сек перед созданием нового объявления."
           | None => both_markers
           end
         else if includes both_markers quota_marker then quota_message
         else both_markers)].
Proof.
  do 4 (split; [reflexivity|]).
  split; [discriminate|].
  apply (C10_error_branch_order
           (signed_in (refusing (Some (Some mixed_body))))
           cook (editing cook) (u := alice)
           (ax := refusal (Some (Some mixed_body)))
           (body := mixed_body) (msg := both_markers));
    try reflexivity.
  discriminate.
Defined.

End FailureClaims.

(** ** Failures of the asynchronous operations *)

Section AsyncClaims.

Import JobForm Constraints Sample.








End AsyncClaims.

(** ** The premium panel *)

Section PremiumClaims.

Import PremiumButton Shown Sample.

(** C9. For every fetched premium status, the panel renders the purchase
    action exactly when the fetched [isPremium] flag is false and the
    purchased label exactly when it is true. *)
Theorem C9_panel_follows_status (e : env) (st : state) (u : user)
        (status : premium_status) :
  current_user e = Some u ->
  api_user (server e) (user_id u) = Resolved status ->
  let st' := final (fetchUserPremiumStatus e st) in
  is_purchase_action (sheet_footer (render e st')) = negb (isPremium status)
  /\ is_active_label (sheet_footer (render e st')) = isPremium status
  /\ sheet_footer (render e st') =
     if isPremium status then purchased_label (t e "purchased")
     else purchase_button "btn btn-primary w-full py-3 text-lg"
                          (t e "purchase").
Proof.
  intros Hu Hr st'. subst st'.
  unfold fetchUserPremiumStatus. rewrite Hu.
  unfold try_catch, axios_get, bind.
  cbn [emit_event outcome final trace]. rewrite Hr.
  cbn. destruct (isPremium status); repeat split.
Qed.

Lemma C9_witness :
  current_user (signed_in accepting) = Some alice
  /\ api_user (server (signed_in accepting)) (user_id alice)
     = Resolved {| isPremium := true |}
  /\ let st' := final (fetchUserPremiumStatus (signed_in accepting) initial) in
     is_purchase_action (sheet_footer (render (signed_in accepting) st'))
     = negb (isPremium {| isPremium := true |})
     /\ is_active_label (sheet_footer (render (signed_in accepting) st'))
        = isPremium {| isPremium := true |}
     /\ sheet_footer (render (signed_in accepting) st') =
        if isPremium {| isPremium := true |}
        then purchased_label (t (signed_in accepting) "purchased")
        else purchase_button "btn btn-primary w-full py-3 text-lg"
                             (t (signed_in accepting) "purchase").
Proof.
  split; [reflexivity|]. split; [reflexivity|].
  apply (C9_panel_follows_status (signed_in accepting) initial (u := alice)
                                 (status := {| isPremium := true |}));
    reflexivity.
Defined.

End PremiumClaims.

(** * Further properties of the two components *)

(** ** The wait pattern *)

Section WaitPattern.

Import JobForm Constraints.

Lemma match_here_lits_inv (l : jsstring) (p : regex) (bos : bool)
      (s : jsstring) (caps : list jsstring) :
  match_here (lits l ++ p) bos s = Some caps ->
  exists rest bos', s = l ++ rest /\ match_here p bos' rest = Some caps.
Proof.
  revert bos s. induction l as [|c l IH]; intros bos s H.
  - now exists s, bos.
  - cbn [lits map app match_here] in H.
    destruct s as [|x s]; [discriminate|].
    destruct (N.eqb_spec x c) as [->|]; [|discriminate].
    destruct (IH _ _ H) as (rest & bos' & -> & Hm).
    now exists rest, bos'.
Qed.

Lemma match_here_lits_app (l : jsstring) (p : regex) (bos : bool)
      (rest : jsstring) :
  l <> [] ->
  match_here (lits l ++ p) bos (l ++ rest) = match_here p false rest.
Proof.
  revert bos. induction l as [|c l IH]; intros bos Hl; [contradiction|].
  cbn [lits map app match_here]. rewrite N.eqb_refl.
  destruct l as [|c' l]; [reflexivity|].
  now apply IH.
Qed.

(** What a successful captured run [(\d+)] took: a non-empty string of
    digits, after which the rest of the pattern matched. *)
Lemma digits_sound (k : jsstring -> option (list jsstring))
      (s acc : jsstring) (caps : list jsstring) :
  digits k true s acc = Some caps ->
  exists d rest caps',
    all_digits d = true /\ s = d ++ rest /\ k rest = Some caps'
    /\ caps = (acc ++ d) :: caps'.
Proof.
  revert acc. induction s as [|x s IH]; intros acc H; [discriminate|].
  cbn [digits] in H. destruct (is_digit x) eqn:Ex; [|discriminate].
  destruct (digits k true s (acc ++ [x])) as [caps0|] eqn:E.
  - injection H as <-.
    destruct (IH _ E) as (d & rest & caps' & Hd & -> & Hk & ->).
    exists (x :: d), rest, caps'. repeat split; try assumption.
    + cbn. rewrite Ex. destruct d; [discriminate|exact Hd].
    + now rewrite <- app_assoc.
  - destruct (k s) as [caps'|] eqn:Ek; [|discriminate].
    injection H as <-.
    exists [x], s, caps'. repeat split; try assumption.
    cbn. now rewrite Ex.
Qed.

(** A run [\d+] succeeds as soon as some non-empty prefix of digits is
    followed by a text on which the rest of the pattern matches. *)
Lemma digits_complete (k : jsstring -> option (list jsstring))
      (capture : bool) (d rest acc : jsstring) :
  all_digits d = true -> k rest <> None ->
  digits k capture (d ++ rest) acc <> None.
Proof.
  revert acc. induction d as [|x d IH]; intros acc Hd Hk; [discriminate|].
  cbn in Hd. apply andb_true_iff in Hd. destruct Hd as [Hx Hd].
  cbn [app digits]. rewrite Hx.
  destruct d as [|y d].
  - cbn [app]. destruct (digits k capture rest (acc ++ [x])); [discriminate|].
    destruct capture; [|exact Hk].
    destruct (k rest); [discriminate|contradiction].
  - assert (H : digits k capture ((y :: d) ++ rest) (acc ++ [x]) <> None)
      by (apply IH; assumption).
    destruct (digits k capture ((y :: d) ++ rest) (acc ++ [x]));
      [discriminate|contradiction].
Qed.

Lemma wait_here_sound (bos : bool) (s : jsstring) (caps : list jsstring) :
  match_here wait_pattern bos s = Some caps ->
  exists m sec post,
    caps = [m; sec] /\ all_digits m = true /\ all_digits sec = true
    /\ s = lit "через " ++ m ++ lit "м " ++ sec ++ lit "с" ++ post.
Proof.
  unfold wait_pattern. intros H.
  apply match_here_lits_inv in H. destruct H as (r1 & b1 & -> & H).
  cbn [app match_here] in H.
  apply digits_sound in H.
  destruct H as (m & r2 & caps1 & Hm & -> & H & ->).
  apply match_here_lits_inv in H. destruct H as (r3 & b3 & -> & H).
  cbn [app match_here] in H.
  apply digits_sound in H.
  destruct H as (sec & r4 & caps2 & Hsec & -> & H & ->).
  rewrite <- (app_nil_r (lits (lit "с"))) in H.
  apply match_here_lits_inv in H. destruct H as (post & b5 & -> & H).
  cbn [match_here] in H. injection H as <-.
  exists m, sec, post. repeat split; assumption.
Qed.

Lemma wait_here_complete (bos : bool) (m sec post : jsstring) :
  all_digits m = true -> all_digits sec = true ->
  match_here wait_pattern bos
             (lit "через " ++ m ++ lit "м " ++ sec ++ lit "с" ++ post)
  <> None.
Proof.
  intros Hm Hsec. unfold wait_pattern.
  rewrite match_here_lits_app by discriminate.
  cbn [app match_here].
  apply digits_complete; [exact Hm|].
  rewrite match_here_lits_app by discriminate.
  cbn [app match_here].
  apply digits_complete; [exact Hsec|].
  rewrite <- (app_nil_r (lits (lit "с"))).
  rewrite match_here_lits_app by discriminate.
  discriminate.
Qed.

Lemma search_wait_sound (bos : bool) (s : jsstring) (caps : list jsstring) :
  search wait_pattern bos s = Some caps ->
  exists pre m sec post,
    caps = [m; sec] /\ all_digits m = true /\ all_digits sec = true
    /\ s = pre ++ lit "через " ++ m ++ lit "м " ++ sec ++ lit "с" ++ post.
Proof.
  revert bos. induction s as [|x s IH]; intros bos H.
  - cbn [search] in H.
    destruct (match_here wait_pattern bos []) eqn:E; [|discriminate].
    injection H as <-.
    destruct (wait_here_sound _ _ E) as (m & sec & post & H1 & H2 & H3 & H4).
    now exists [], m, sec, post.
  - cbn [search] in H.
    destruct (match_here wait_pattern bos (x :: s)) eqn:E.
    + injection H as <-.
      destruct (wait_here_sound _ _ E) as (m & sec & post & H1 & H2 & H3 & H4).
      now exists [], m, sec, post.
    + destruct (IH _ H) as (pre & m & sec & post & H1 & H2 & H3 & ->).
      now exists (x :: pre), m, sec, post.
Qed.

Lemma search_wait_complete (bos : bool) (pre m sec post : jsstring) :
  all_digits m = true -> all_digits sec = true ->
  search wait_pattern bos
         (pre ++ lit "через " ++ m ++ lit "м " ++ sec ++ lit "с" ++ post)
  <> None.
Proof.
  intros Hm Hsec. revert bos. induction pre as [|x pre IH]; intros bos.
  - pose proof (@wait_here_complete bos m sec post Hm Hsec) as H.
    cbn [app].
    remember (lit "через " ++ m ++ lit "м " ++ sec ++ lit "с" ++ post) as s.
    destruct s; cbn [search];
      destruct (match_here wait_pattern bos _); try discriminate;
      contradiction.
  - cbn [app search].
    destruct (match_here wait_pattern bos _); [discriminate|].
    apply IH.
Qed.

End WaitPattern.

(** ** The city list *)

Section CityList.

Import JobForm Sample MoreSamples FormView.

Lemma fetchCities_resolved (e : env) (st : state) (cs : list city) :
  api_cities (server e) = Resolved cs ->
  fetchCities e st =
  {| outcome := Normal tt;
     final := {| values := values st; form_errors := form_errors st;
                 cities := map (fun c => {| opt_value := city_id c;
                                            opt_label := city_name c |}) cs;
                 loading := false |};
     trace := [Request (Get (lit "http://localhost:3001/api/cities"))] |}.
Proof.
  intros H. unfold fetchCities, try_finally, try_catch, axios_get, bind.
  rewrite H. reflexivity.
Qed.

Lemma fetchCities_rejected (e : env) (st : state) (ax : axios_error) :
  api_cities (server e) = Rejected ax ->
  fetchCities e st =
  {| outcome := Normal tt;
     final := {| values := values st; form_errors := form_errors st;
                 cities := cities st; loading := false |};
     trace := [Request (Get (lit "http://localhost:3001/api/cities"));
               ConsoleError (lit "Ошибка получения городов:");
               Toast Failure (lit "Не удалось загрузить города!")] |}.
Proof.
  intros H. unfold fetchCities, try_finally, try_catch, axios_get, bind.
  rewrite H. reflexivity.
Qed.

Lemma skeleton_while_loading (e : env) (st : state) :
  shows_skeleton (block e st CityId) = loading st.
Proof.
  cbn [block]. now destruct (loading st), (e_cityId (form_errors st)).
Qed.

Lemma selector_when_loaded (e : env) (st : state) :
  loading st = false ->
  selector (block e st CityId)
  = Some (cities st,
          find (fun c => match cityId (values st) with
                         | Some v => (opt_value c =? v)%Z
                         | None => false
                         end) (cities st)).
Proof.
  intros H. cbn [block]. rewrite H. reflexivity.
Qed.

(** X1. When the city list is served, the selector gets one option per
    city, in the order served, with the city's id as value and its name as
    label; the skeleton gives way to the selector, and the only event is
    the one GET request. *)
Theorem X1_fetchCities_loads_options (e : env) (st : state) (cs : list city) :
  api_cities (server e) = Resolved cs ->
  let r := fetchCities e st in
  map opt_value (cities (final r)) = map city_id cs
  /\ map opt_label (cities (final r)) = map city_name cs
  /\ shows_skeleton (block e (final r) CityId) = false
  /\ (exists v, selector (block e (final r) CityId)
                = Some (cities (final r), v))
  /\ trace r = [Request (Get (lit "http://localhost:3001/api/cities"))].
Proof.
  intros H r. subst r. rewrite (fetchCities_resolved _ _ H).
  cbn [final trace cities]. rewrite !map_map. cbn [opt_value opt_label].
  split; [|split; [|split; [|split]]].
  - now apply map_ext.
  - now apply map_ext.
  - apply skeleton_while_loading.
  - eexists. now rewrite selector_when_loaded.
  - reflexivity.
Qed.

Lemma X1_witness :
  api_cities (server (signed_in serving_towns)) = Resolved towns
  /\ let r := fetchCities (signed_in serving_towns) initial in
     map opt_value (cities (final r)) = map city_id towns
     /\ map opt_label (cities (final r)) = map city_name towns
     /\ shows_skeleton (block (signed_in serving_towns) (final r) CityId)
        = false
     /\ (exists v, selector (block (signed_in serving_towns) (final r) CityId)
                   = Some (cities (final r), v))
     /\ trace r = [Request (Get (lit "http://localhost:3001/api/cities"))].
Proof.
  split; [reflexivity|].
  apply (X1_fetchCities_loads_options (signed_in serving_towns) initial
                                      (cs := towns)).
  reflexivity.
Defined.

(** X2. Whatever the service answers, fetching the city list ends the
    loading state, leaves the draft and the validation errors alone and
    sends exactly one request; when the fetch fails the options are the
    ones there were (none after mount) and the selector is rendered all
    the same, in place of the skeleton. *)
Theorem X2_fetchCities_always_settles (e : env) (st : state) :
  let r := fetchCities e st in
  loading (final r) = false
  /\ values (final r) = values st
  /\ form_errors (final r) = form_errors st
  /\ requests (trace r) = [Get (lit "http://localhost:3001/api/cities")]
  /\ shows_skeleton (block e (final r) CityId) = false
  /\ (forall ax, api_cities (server e) = Rejected ax ->
                 cities (final r) = cities st).
Proof.
  intros r. subst r.
  destruct (api_cities (server e)) as [cs|ax] eqn:H.
  - rewrite (fetchCities_resolved _ _ H). cbn [final trace].
    split; [|split; [|split; [|split; [|split]]]];
      try reflexivity; try discriminate.
    apply skeleton_while_loading.
  - rewrite (fetchCities_rejected _ _ H). cbn [final trace].
    split; [|split; [|split; [|split; [|split]]]]; try reflexivity.
    apply skeleton_while_loading.
Qed.

Lemma X2_witness :
  api_cities (server (signed_in (refusing None))) = Rejected (refusal None)
  /\ let r := fetchCities (signed_in (refusing None)) initial in
     loading (final r) = false
     /\ requests (trace r) = [Get (lit "http://localhost:3001/api/cities")]
     /\ cities (final r) = cities initial.
Proof.
  pose proof (X2_fetchCities_always_settles (signed_in (refusing None)) initial)
    as (Hl & _ & _ & Hq & _ & Hc).
  split; [reflexivity|]. split; [exact Hl|]. split; [exact Hq|].
  apply (Hc (refusal None)). reflexivity.
Defined.

Lemma find_city_option (cs : list city) (c : city) :
  In c cs -> NoDup (map city_id cs) ->
  find (fun o => (opt_value o =? city_id c)%Z)
       (map (fun c => {| opt_value := city_id c; opt_label := city_name c |})
            cs)
  = Some {| opt_value := city_id c; opt_label := city_name c |}.
Proof.
  induction cs as [|a cs IH]; intros Hin Hnd; [contradiction|].
  cbn [map find opt_value]. inversion Hnd as [|x l Hnotin Hnd']; subst.
  destruct (Z.eqb_spec (city_id a) (city_id c)) as [Heq|Hne].
  - destruct Hin as [->|Hin]; [reflexivity|].
    exfalso. apply Hnotin. rewrite Heq. now apply in_map.
  - destruct Hin as [->|Hin]; [contradiction|]. now apply IH.
Qed.

(** X3. Choosing a city and reading it back: once the list is served with
    pairwise different ids, after [setValue('cityId', id)] for a city of the
    list the selector shows that city's option, and after the selection is
    cleared ([setValue('cityId', undefined)]) it shows none. *)
Theorem X3_selected_city_is_shown (e : env) (st : state) (cs : list city)
        (c : city) :
  api_cities (server e) = Resolved cs ->
  In c cs ->
  NoDup (map city_id cs) ->
  let loaded := final (fetchCities e st) in
  let chosen := final (setValue_cityId (Some (city_id c)) loaded) in
  let cleared := final (setValue_cityId None chosen) in
  selector (block e chosen CityId)
  = Some (cities loaded,
          Some {| opt_value := city_id c; opt_label := city_name c |})
  /\ selector (block e cleared CityId) = Some (cities loaded, None).
Proof.
  intros H Hin Hnd loaded chosen cleared. subst cleared chosen loaded.
  rewrite (fetchCities_resolved _ _ H).
  cbn [final setValue_cityId modify].
  rewrite !selector_when_loaded by reflexivity.
  cbn [values cityId cities].
  rewrite (@find_city_option cs c Hin Hnd). split; [reflexivity|].
  f_equal. f_equal.
  clear. induction cs as [|a l IH]; [reflexivity|]. cbn [map find].
  apply IH.
Qed.

Lemma X3_witness :
  api_cities (server (signed_in serving_towns)) = Resolved towns
  /\ In eilat towns
  /\ NoDup (map city_id towns)
  /\ let loaded := final (fetchCities (signed_in serving_towns) initial) in
     let chosen := final (setValue_cityId (Some (city_id eilat)) loaded) in
     let cleared := final (setValue_cityId None chosen) in
     selector (block (signed_in serving_towns) chosen CityId)
     = Some (cities loaded,
             Some {| opt_value := city_id eilat;
                     opt_label := city_name eilat |})
     /\ selector (block (signed_in serving_towns) cleared CityId)
        = Some (cities loaded, None).
Proof.
  assert (Hin : In eilat towns) by (right; right; left; reflexivity).
  assert (Hnd : NoDup (map city_id towns)).
  { repeat constructor; cbn; intuition discriminate. }
  split; [reflexivity|]. split; [exact Hin|]. split; [exact Hnd|].
  apply (@X3_selected_city_is_shown (signed_in serving_towns) initial
                                    towns eilat);
    [reflexivity|exact Hin|exact Hnd].
Defined.

End CityList.

(** ** Validation messages and their display *)

Section Messages.

Import JobForm Constraints Sample MoreSamples FormView.

Lemma onSubmit_form_errors (e : env) (data : draft) (st : state) :
  form_errors st = no_errors ->
  form_errors (final (onSubmit e data st)) = no_errors.
Proof.
  intros H.
  destruct (current_user e) as [u|] eqn:Hu.
  2: { unfold onSubmit. now rewrite Hu. }
  destruct (api_jobs (server e) (payload_of data u)) as [created|ax] eqn:Hr.
  - now destruct (@onSubmit_resolved_shape e data st u created Hu Hr)
      as (rest & -> & _).
  - rewrite (onSubmit_rejected _ _ _ Hu Hr). cbn [final].
    now destruct (onSubmit_catch_shape (AxiosError ax) st) as (notes & -> & _).
Qed.

Lemma valid_no_issue (d : draft) (f : field) :
  satisfies_constraints d = true -> jobSchema f d = [].
Proof.
  intros H. unfold satisfies_constraints in H.
  rewrite forallb_forall in H.
  assert (Hf : In f fields) by (destruct f; cbn; tauto).
  specialize (H f Hf). rewrite <- jobSchema_constraint in H.
  now destruct (jobSchema f d).
Qed.

(** After a submission, whatever its course, the error kept for a field
    is the first issue the schema raised on the submitted value. *)
Lemma errors_after_submit (e : env) (st : state) (f : field) :
  error_of (form_errors (final (handleSubmit (onSubmit e) st))) f
  = hd_error (jobSchema f (values st)).
Proof.
  destruct (satisfies_constraints (values st)) eqn:Hv.
  - rewrite (handleSubmit_valid _ _ Hv).
    rewrite onSubmit_form_errors by reflexivity.
    rewrite (@valid_no_issue (values st) f Hv). now destruct f.
  - destruct (zodResolver_invalid _ Hv) as (errs & Hres & Herrs & _).
    rewrite (handleSubmit_invalid _ _ Hres). cbn [final form_errors].
    apply Herrs.
Qed.

(** X4. The messages of the two digit fields after a submission.  The
    salary gets 'Можно вводить только цифры' exactly when it is not a
    non-empty string of digits.  The phone gets that same message when it
    is not a non-empty string of digits, even if it is also too short;
    it gets 'Минимум 7 цифр' when it is a string of fewer than 7 digits,
    and no message otherwise. *)
Theorem X4_digit_field_messages (e : env) (st : state) :
  let errs := form_errors (final (handleSubmit (onSubmit e) st)) in
  e_salary errs
  = (if all_digits (salary (values st)) then None
     else Some (lit "Можно вводить только цифры"))
  /\ e_phone errs
     = (if all_digits (phone (values st)) then
          if 7 <=? List.length (phone (values st)) then None
          else Some (lit "Минимум 7 цифр")
        else Some (lit "Можно вводить только цифры")).
Proof.
  intros errs. subst errs. split.
  - change (e_salary ?x) with (error_of x Salary).
    rewrite errors_after_submit.
    unfold jobSchema, Zod.string_. cbn [filter Zod.fails].
    rewrite regex_test_digits_only.
    now destruct (all_digits (salary (values st))).
  - change (e_phone ?x) with (error_of x Phone).
    rewrite errors_after_submit.
    unfold jobSchema, Zod.string_. cbn [filter Zod.fails].
    rewrite regex_test_digits_only.
    destruct (all_digits (phone (values st))),
      (Nat.ltb_spec (List.length (phone (values st))) 7),
      (Nat.leb_spec 7 (List.length (phone (values st))));
      cbn [negb map Zod.msg_of hd_error]; reflexivity || lia.
Qed.

(** X5. The messages of the other three fields after a submission.  The
    title gets 'Минимум 3 символа' below 3 code units, 'Максимум 100
    символов' above 100 and none in between; the description likewise with
    10 and 2000; the city gets 'Выберите город' exactly when none is
    chosen. *)
Theorem X5_length_and_city_messages (e : env) (st : state) :
  let errs := form_errors (final (handleSubmit (onSubmit e) st)) in
  e_title errs
  = (if List.length (title (values st)) <? 3
     then Some (lit "Минимум 3 символа")
     else if 100 <? List.length (title (values st))
          then Some (lit "Максимум 100 символов") else None)
  /\ e_description errs
     = (if List.length (description (values st)) <? 10
        then Some (lit "Минимум 10 символов")
        else if 2000 <? List.length (description (values st))
             then Some (lit "Максимум 2000 символов") else None)
  /\ e_cityId errs
     = match cityId (values st) with
       | Some _ => None
       | None => Some (lit "Выберите город")
       end.
Proof.
  intros errs. subst errs. split; [|split].
  - change (e_title ?x) with (error_of x Title).
    rewrite errors_after_submit.
    unfold jobSchema, Zod.string_. cbn [filter Zod.fails].
    destruct (Nat.ltb_spec (List.length (title (values st))) 3),
      (Nat.ltb_spec 100 (List.length (title (values st))));
      cbn [map Zod.msg_of hd_error]; reflexivity || lia.
  - change (e_description ?x) with (error_of x Description).
    rewrite errors_after_submit.
    unfold jobSchema, Zod.string_. cbn [filter Zod.fails].
    destruct (Nat.ltb_spec (List.length (description (values st))) 10),
      (Nat.ltb_spec 2000 (List.length (description (values st))));
      cbn [map Zod.msg_of hd_error]; reflexivity || lia.
  - change (e_cityId ?x) with (error_of x CityId).
    rewrite errors_after_submit.
    unfold jobSchema, Zod.number_. now destruct (cityId (values st)).
Qed.

(** X6. After a submission, each of the title, salary, city and phone
    blocks shows a validation message exactly when its field violates its
    constraint, the message being the first issue of the field; the text
    inputs of title, salary and phone get the red border in exactly that
    case and the grey one otherwise. *)
Theorem X6_inline_messages_follow_validation (e : env) (st : state)
        (f : field) :
  f <> Description ->
  let st' := final (handleSubmit (onSubmit e) st) in
  messages (block e st' f)
  = match hd_error (jobSchema f (values st)) with
    | Some msg => [msg]
    | None => []
    end
  /\ (messages (block e st' f) = [] <-> constraint_ok f (values st) = true)
  /\ (f <> CityId ->
      class_names (block e st' f)
      = [("bg-white w-full border px-3 py-2 rounded "
            ++ (if constraint_ok f (values st) then "border-gray-300"
                else "border-red-500"))%string]).
Proof.
  intros Hf st'. subst st'.
  pose proof (errors_after_submit e st f) as He.
  pose proof (jobSchema_constraint f (values st)) as Hc.
  rewrite (@block_messages e _ f Hf), He.
  split; [reflexivity|]. split.
  - destruct (jobSchema f (values st)); cbn in *; rewrite <- Hc;
      split; congruence.
  - intros Hcity. rewrite <- Hc.
    destruct f; try contradiction; cbn [block class_names flat_map app];
      cbn [error_of] in He; rewrite He;
      destruct (jobSchema _ (values st)); reflexivity.
Qed.

Lemma X6_witness :
  Phone <> Description
  /\ let st' := final (handleSubmit (onSubmit (signed_in accepting))
                                    (editing terse)) in
     messages (block (signed_in accepting) st' Phone)
     = match hd_error (jobSchema Phone (values (editing terse))) with
       | Some msg => [msg]
       | None => []
       end
     /\ (messages (block (signed_in accepting) st' Phone) = []
         <-> constraint_ok Phone (values (editing terse)) = true)
     /\ (Phone <> CityId ->
         class_names (block (signed_in accepting) st' Phone)
         = [("bg-white w-full border px-3 py-2 rounded "
               ++ (if constraint_ok Phone (values (editing terse))
                   then "border-gray-300" else "border-red-500"))%string]).
Proof.
  split; [discriminate|].
  apply (@X6_inline_messages_follow_validation (signed_in accepting)
                                               (editing terse) Phone).
  discriminate.
Defined.

End Messages.

(** ** Requests and refusals *)

Section Requests.

Import JobForm Constraints Sample MoreSamples.

Lemma requests_onSubmit (e : env) (data : draft) (st : state) :
  requests (trace (onSubmit e data st))
  = match current_user e with
    | Some u => [Post (lit "http://localhost:3001/api/jobs")
                      (JobBody (payload_of data u))]
    | None => []
    end.
Proof.
  destruct (current_user e) as [u|] eqn:Hu.
  2: { unfold onSubmit. now rewrite Hu. }
  destruct (api_jobs (server e) (payload_of data u)) as [created|ax] eqn:Hr.
  - destruct (@onSubmit_resolved_shape e data st u created Hu Hr)
      as (rest & -> & Hrest).
    cbn [trace]. unfold callback_events.
    destruct Hrest as [(_ & ->)|(_ & notes & ->)].
    + now destruct (onJobCreated e).
    + destruct (onJobCreated e); cbn [requests flat_map app];
        change (flat_map _ (map (Toast Failure) notes))
          with (requests (map (Toast Failure) notes));
        now rewrite requests_map_toast.
  - rewrite (onSubmit_rejected _ _ _ Hu Hr). cbn [trace].
    destruct (onSubmit_catch_shape (AxiosError ax) st) as (notes & -> & _).
    cbn [trace requests flat_map app].
    change (flat_map _ (map (Toast Failure) notes))
      with (requests (map (Toast Failure) notes)).
    now rewrite requests_map_toast.
Qed.

(** [parseInt] on numbers below and from [10^21]: [parseInt(1e21)] and
    [parseInt(1e23)] are [1], [parseInt(-2.5e22)] is [-2]. *)
Example parseInt_samples :
  map parseInt
      [None; Some 3; Some (-7); Some (10 ^ 21 - 1); Some (10 ^ 21);
       Some (round_double (10 ^ 23)); Some (-25 * 10 ^ 21); Some (2 ^ 70)]%Z
  = [None; Some 3; Some (-7); Some 999999999999999999999; Some 1; Some 1;
     Some (-2); Some 1]%Z.
Proof. vm_compute. reflexivity. Qed.

(** A city served with the id [1e21] is posted with [cityId: 1]. *)
Example far_city_request :
  requests (trace (handleSubmit (onSubmit (signed_in accepting))
                                (editing far_city)))
  = [Post (lit "http://localhost:3001/api/jobs")
          (JobBody {| p_title := title cook;
                      p_salary := salary cook;
                      p_cityId := Some 1%Z;
                      p_phone := phone cook;
                      p_description := description cook;
                      p_userId := user_id alice |})].
Proof. vm_compute. reflexivity. Qed.

Lemma parseInt_small (id : Z) :
  (Z.abs id < 10 ^ 21)%Z -> parseInt (Some id) = Some id.
Proof.
  intros H. unfold parseInt.
  destruct (Z.ltb_spec (Z.abs id) (10 ^ 21)); [reflexivity|lia].
Qed.

(** X7. A submission sends a request exactly when the draft meets every
    constraint and a user is signed in; it then sends one request, never
    more (nothing is retried), to the job endpoint.  Its body is the draft
    as typed, with the user's id and with [parseInt] of the chosen city
    id, which is that id whenever it is below [10^21] in absolute value. *)
Theorem X7_one_request_when_valid_and_signed_in (e : env) (st : state) :
  requests (trace (handleSubmit (onSubmit e) st))
  = (if satisfies_constraints (values st) then
       match current_user e with
       | Some u =>
           [Post (lit "http://localhost:3001/api/jobs")
                 (JobBody {| p_title := title (values st);
                             p_salary := salary (values st);
                             p_cityId := parseInt (cityId (values st));
                             p_phone := phone (values st);
                             p_description := description (values st);
                             p_userId := user_id u |})]
       | None => []
       end
     else [])
  /\ (forall id, cityId (values st) = Some id ->
                 (Z.abs id < 10 ^ 21)%Z ->
                 parseInt (cityId (values st)) = Some id).
Proof.
  split.
  - destruct (satisfies_constraints (values st)) eqn:Hv.
    + rewrite (handleSubmit_valid _ _ Hv). now rewrite requests_onSubmit.
    + destruct (zodResolver_invalid _ Hv) as (errs & Hres & _).
      now rewrite (handleSubmit_invalid _ _ Hres).
  - intros id -> H. now apply parseInt_small.
Qed.

Lemma X7_witness :
  cityId (values (editing cook)) = Some 3%Z
  /\ (Z.abs 3 < 10 ^ 21)%Z
  /\ parseInt (cityId (values (editing cook))) = Some 3%Z
  /\ requests (trace (handleSubmit (onSubmit (signed_in accepting))
                                   (editing cook)))
     = [Post (lit "http://localhost:3001/api/jobs")
             (JobBody {| p_title := title cook;
                         p_salary := salary cook;
                         p_cityId := Some 3%Z;
                         p_phone := phone cook;
                         p_description := description cook;
                         p_userId := user_id alice |})].
Proof.
  destruct (X7_one_request_when_valid_and_signed_in
              (signed_in accepting) (editing cook)) as (Hreq & Hid).
  assert (Hb : (Z.abs 3 < 10 ^ 21)%Z) by (vm_compute; reflexivity).
  split; [reflexivity|]. split; [exact Hb|].
  split; [exact (Hid 3%Z eq_refl Hb)|].
  rewrite Hreq. vm_compute. reflexivity.
Defined.

(** X8. A refusal whose body has no [error] to speak of (none, or the
    empty string) and a list [errors] shows one error notification per
    element of the list, in the order of the list, and nothing else. *)
Theorem X8_one_toast_per_field_error (e : env) (data : draft) (st : state)
        (u : user) (ax : axios_error) (body : error_body)
        (errs : list jsstring) :
  current_user e = Some u ->
  api_jobs (server e) (payload_of data u) = Rejected ax ->
  response ax = Some (Some body) ->
  error body = None \/ error body = Some [] ->
  errors body = Some errs ->
  toasts (trace (onSubmit e data st)) = map (pair Failure) errs.
Proof.
  intros Hu Hr Hresp Herr Herrs.
  rewrite (onSubmit_rejected _ _ _ Hu Hr). cbn [trace].
  unfold onSubmit_catch. cbn [response_data]. rewrite Hresp.
  assert (Ht : truthy (error body) = None)
    by (destruct Herr as [-> | ->]; reflexivity).
  rewrite Ht, Herrs.
  unfold bind, console_error, emit_event.
  cbn beta iota delta [outcome final trace].
  rewrite forEach_toast_error. cbn [trace toasts flat_map app].
  apply toasts_map_toast.
Qed.

Lemma X8_witness :
  current_user (signed_in (refusing (Some (Some field_errors_body))))
  = Some alice
  /\ api_jobs (server (signed_in (refusing (Some (Some field_errors_body)))))
              (payload_of cook alice)
     = Rejected (refusal (Some (Some field_errors_body)))
  /\ response (refusal (Some (Some field_errors_body)))
     = Some (Some field_errors_body)
  /\ (error field_errors_body = None \/ error field_errors_body = Some [])
  /\ errors field_errors_body
     = Some [lit "Неверный телефон"; lit "Слишком короткое описание"]
  /\ toasts (trace (onSubmit
                      (signed_in (refusing (Some (Some field_errors_body))))
                      cook (editing cook)))
     = map (pair Failure)
           [lit "Неверный телефон"; lit "Слишком короткое описание"].
Proof.
  do 3 (split; [reflexivity|]).
  split; [left; reflexivity|]. split; [reflexivity|].
  apply (@X8_one_toast_per_field_error
           (signed_in (refusing (Some (Some field_errors_body))))
           cook (editing cook) alice
           (refusal (Some (Some field_errors_body))) field_errors_body
           [lit "Неверный телефон"; lit "Слишком короткое описание"]);
    try reflexivity.
  left. reflexivity.
Defined.

(** X9. A submission that fails without an answer (a network failure), or
    with an answer without data, or with a body that has neither a
    non-empty [error] nor an [errors] list, shows the one generic
    notification 'Ошибка при создании объявления. Попробуйте позже.'. *)
Theorem X9_generic_notification (e : env) (data : draft) (st : state)
        (u : user) (ax : axios_error) :
  current_user e = Some u ->
  api_jobs (server e) (payload_of data u) = Rejected ax ->
  response ax = None
  \/ response ax = Some None
  \/ (exists body, response ax = Some (Some body)
                   /\ (error body = None \/ error body = Some [])
                   /\ errors body = None) ->
  toasts (trace (onSubmit e data st))
  = [(Failure, lit "Ошибка при создании объявления. Попробуйте позже.")].
Proof.
  intros Hu Hr Hcase.
  rewrite (onSubmit_rejected _ _ _ Hu Hr). cbn [trace].
  unfold onSubmit_catch. cbn [response_data].
  destruct Hcase as [-> | [-> | (body & -> & Herr & Herrs)]];
    try reflexivity.
  assert (Ht : truthy (error body) = None)
    by (destruct Herr as [-> | ->]; reflexivity).
  rewrite Ht, Herrs. reflexivity.
Qed.

Lemma X9_witness :
  current_user (signed_in (refusing None)) = Some alice
  /\ api_jobs (server (signed_in (refusing None))) (payload_of cook alice)
     = Rejected (refusal None)
  /\ response (refusal None) = None
  /\ toasts (trace (onSubmit (signed_in (refusing None)) cook
                             (editing cook)))
     = [(Failure, lit "Ошибка при создании объявления. Попробуйте позже.")].
Proof.
  do 3 (split; [reflexivity|]).
  apply (@X9_generic_notification (signed_in (refusing None)) cook
                                  (editing cook) alice (refusal None));
    try reflexivity.
  left. reflexivity.
Defined.

(** X10. The notification of a rate-limit refusal.  When the [error]
    string carries the rate-limit marker, either it holds a text
    "через M м S с" with M and S non-empty strings of digits, and the
    notification is 'Подождите M мин S сек перед созданием нового
    объявления.' for such an M and S of the string; or it holds no such
    text anywhere, and the notification is the string as it came. *)
Theorem X10_rate_limit_notification (e : env) (data : draft) (st : state)
        (u : user) (ax : axios_error) (body : error_body) (msg : jsstring) :
  current_user e = Some u ->
  api_jobs (server e) (payload_of data u) = Rejected ax ->
  response ax = Some (Some body) ->
  error body = Some msg ->
  includes msg rate_limit_marker = true ->
  (exists pre m sec post,
      msg = pre ++ lit "через " ++ m ++ lit "м " ++ sec ++ lit "с" ++ post
      /\ all_digits m = true /\ all_digits sec = true
      /\ toasts (trace (onSubmit e data st))
         = [(Failure,
             lit "Подождите " ++ m ++ lit " мин " ++ sec
               ++ lit " сек перед созданием нового объявления.")])
  \/ ((forall pre m sec post,
          all_digits m = true -> all_digits sec = true ->
          msg <> pre ++ lit "через " ++ m ++ lit "м " ++ sec ++ lit "с"
                     ++ post)
      /\ toasts (trace (onSubmit e data st)) = [(Failure, msg)]).
Proof.
  intros Hu Hr Hresp Herr Hrate.
  rewrite (onSubmit_rejected _ _ _ Hu Hr). cbn [trace].
  assert (Hd : response_data (AxiosError ax) = Some body)
    by (cbn [response_data]; now rewrite Hresp).
  assert (Hne : msg <> []).
  { apply (@includes_nonempty msg rate_limit_marker);
      [discriminate|exact Hrate]. }
  rewrite (onSubmit_catch_error _ _ Hd Herr Hne). cbn [trace].
  rewrite Hrate. unfold regex_match.
  destruct (search wait_pattern true msg) as [caps|] eqn:Es.
  - left.
    destruct (search_wait_sound _ _ Es)
      as (pre & m & sec & post & -> & Hm & Hsec & Hmsg).
    exists pre, m, sec, post. repeat split; assumption || reflexivity.
  - right. split; [|reflexivity].
    intros pre m sec post Hm Hsec ->.
    now apply (@search_wait_complete true pre m sec post Hm Hsec).
Qed.

Lemma X10_witness :
  current_user (signed_in (refusing (with_error rate_limited_later)))
  = Some alice
  /\ api_jobs (server (signed_in (refusing (with_error rate_limited_later))))
              (payload_of cook alice)
     = Rejected (refusal (with_error rate_limited_later))
  /\ response (refusal (with_error rate_limited_later))
     = Some (Some {| error := Some rate_limited_later; errors := None |})
  /\ error {| error := Some rate_limited_later; errors := None |}
     = Some rate_limited_later
  /\ includes rate_limited_later rate_limit_marker = true
  /\ ((exists pre m sec post,
          rate_limited_later
          = pre ++ lit "через " ++ m ++ lit "м " ++ sec ++ lit "с" ++ post
          /\ all_digits m = true /\ all_digits sec = true
          /\ toasts (trace (onSubmit
                              (signed_in
                                 (refusing (with_error rate_limited_later)))
                              cook (editing cook)))
             = [(Failure,
                 lit "Подождите " ++ m ++ lit " мин " ++ sec
                   ++ lit " сек перед созданием нового объявления.")])
      \/ ((forall pre m sec post,
              all_digits m = true -> all_digits sec = true ->
              rate_limited_later
              <> pre ++ lit "через " ++ m ++ lit "м " ++ sec ++ lit "с"
                     ++ post)
          /\ toasts (trace (onSubmit
                              (signed_in
                                 (refusing (with_error rate_limited_later)))
                              cook (editing cook)))
             = [(Failure, rate_limited_later)])).
Proof.
  do 4 (split; [reflexivity|]).
  split; [vm_compute; reflexivity|].
  apply (@X10_rate_limit_notification
           (signed_in (refusing (with_error rate_limited_later)))
           cook (editing cook) alice
           (refusal (with_error rate_limited_later))
           {| error := Some rate_limited_later; errors := None |}
           rate_limited_later);
    vm_compute; reflexivity.
Defined.

(** X11. Submitting again right after a successful submission sends
    nothing: the form was reset to its defaults, which fail validation on
    every field, so the second submission only records an error for each
    of the five fields. *)
Theorem X11_resubmit_after_success (e : env) (st : state) (u : user)
        (created : job_record) :
  satisfies_constraints (values st) = true ->
  current_user e = Some u ->
  api_jobs (server e) (payload_of (values st) u) = Resolved created ->
  let first := handleSubmit (onSubmit e) st in
  let second := handleSubmit (onSubmit e) (final first) in
  trace second = []
  /\ values (final second) = defaultValues
  /\ forall f, error_of (form_errors (final second)) f <> None.
Proof.
  intros Hv Hu Hr first second. subst second first.
  rewrite (handleSubmit_valid _ _ Hv).
  destruct (@onSubmit_resolved_shape e (values st)
              {| values := values st; form_errors := no_errors;
                 cities := cities st; loading := loading st |}
              u created Hu Hr) as (rest & -> & _).
  cbn [final cities loading].
  rewrite (@handleSubmit_invalid _ _
             {| e_title := hd_error (jobSchema Title defaultValues);
                e_salary := hd_error (jobSchema Salary defaultValues);
                e_cityId := hd_error (jobSchema CityId defaultValues);
                e_phone := hd_error (jobSchema Phone defaultValues);
                e_description := hd_error (jobSchema Description defaultValues)
             |}) by reflexivity.
  cbn [trace final values form_errors].
  split; [reflexivity|]. split; [reflexivity|].
  intros []; discriminate.
Qed.

Lemma X11_witness :
  satisfies_constraints (values (editing cook)) = true
  /\ current_user (signed_in accepting) = Some alice
  /\ api_jobs (server (signed_in accepting))
              (payload_of (values (editing cook)) alice)
     = Resolved (created (payload_of cook alice))
  /\ let first := handleSubmit (onSubmit (signed_in accepting))
                               (editing cook) in
     let second := handleSubmit (onSubmit (signed_in accepting))
                                (final first) in
     trace second = []
     /\ values (final second) = defaultValues
     /\ forall f, error_of (form_errors (final second)) f <> None.
Proof.
  do 3 (split; [reflexivity|]).
  apply (@X11_resubmit_after_success (signed_in accepting) (editing cook)
                                     alice (created (payload_of cook alice)));
    reflexivity.
Defined.

(** X12. Submitting again after a refusal, without editing, repeats the
    first submission: the draft is the same, so the same request goes out
    and, the service answering the same, the same events follow. *)
Theorem X12_resubmit_after_refusal (e : env) (st : state) (u : user)
        (ax : axios_error) :
  current_user e = Some u ->
  api_jobs (server e) (payload_of (values st) u) = Rejected ax ->
  let first := handleSubmit (onSubmit e) st in
  let second := handleSubmit (onSubmit e) (final first) in
  trace second = trace first
  /\ values (final second) = values st.
Proof.
  intros Hu Hr first second. subst second first.
  destruct (satisfies_constraints (values st)) eqn:Hv.
  - rewrite (handleSubmit_valid _ _ Hv).
    rewrite (onSubmit_rejected _ _ _ Hu Hr). cbn [final].
    destruct (onSubmit_catch_shape (AxiosError ax)
                {| values := values st; form_errors := no_errors;
                   cities := cities st; loading := loading st |})
      as (notes & Hc & _).
    rewrite Hc. cbn [final trace outcome].
    rewrite handleSubmit_valid by exact Hv.
    cbn [values cities loading].
    rewrite (onSubmit_rejected _ _ _ Hu Hr). rewrite Hc.
    split; reflexivity.
  - destruct (zodResolver_invalid _ Hv) as (errs & Hres & _).
    rewrite (handleSubmit_invalid _ _ Hres). cbn [final trace].
    rewrite (@handleSubmit_invalid _ _ errs) by exact Hres.
    split; reflexivity.
Qed.

Lemma X12_witness :
  current_user (signed_in (refusing (with_error quota_only))) = Some alice
  /\ api_jobs (server (signed_in (refusing (with_error quota_only))))
              (payload_of (values (editing cook)) alice)
     = Rejected (refusal (with_error quota_only))
  /\ let first := handleSubmit
                    (onSubmit (signed_in (refusing (with_error quota_only))))
                    (editing cook) in
     let second := handleSubmit
                     (onSubmit (signed_in (refusing (with_error quota_only))))
                     (final first) in
     trace second = trace first
     /\ values (final second) = values (editing cook).
Proof.
  do 2 (split; [reflexivity|]).
  apply (@X12_resubmit_after_refusal
           (signed_in (refusing (with_error quota_only))) (editing cook)
           alice (refusal (with_error quota_only)));
    reflexivity.
Defined.

End Requests.

(** ** Success and failure notifications of a submission *)

Section Notifications.

Import JobForm Sample.

(** X13. A submission shows the success notification only when a user is
    signed in and the server accepted the posting; when moreover the
    completion callback is absent or returns normally, it is the only
    notification of the submission. *)
Theorem X13_success_toast_only_when_accepted (e : env) (data : draft)
        (st : state) (msg : jsstring) :
  In (Success, msg) (toasts (trace (onSubmit e data st))) ->
  exists u created,
    current_user e = Some u
    /\ api_jobs (server e) (payload_of data u) = Resolved created
    /\ ((forall handler, onJobCreated e = Some handler ->
                         handler created = Normal tt) ->
        toasts (trace (onSubmit e data st))
        = [(Success, lit "Объявление успешно создано!")]).
Proof.
  intros Hin.
  destruct (current_user e) as [u|] eqn:Hu.
  2: { exfalso. unfold onSubmit in Hin. rewrite Hu in Hin.
       cbn in Hin. destruct Hin as [H|[]]. discriminate H. }
  destruct (api_jobs (server e) (payload_of data u)) as [created|ax] eqn:Hr.
  - exists u, created. split; [reflexivity|]. split; [exact Hr|].
    intros Hcb.
    assert (Hret : callback_returns e created).
    { unfold callback_returns.
      destruct (onJobCreated e) as [handler|]; [now apply Hcb|exact I]. }
    rewrite (@onSubmit_resolved e data st u created Hu Hr Hret). cbn [trace].
    unfold callback_events. now destruct (onJobCreated e).
  - exfalso. rewrite (onSubmit_rejected _ _ _ Hu Hr) in Hin. cbn [trace] in Hin.
    destruct (onSubmit_catch_shape (AxiosError ax) st) as (notes & Hc & _).
    rewrite Hc in Hin. cbn [trace toasts flat_map app] in Hin.
    change (flat_map _ (map (Toast Failure) notes))
      with (toasts (map (Toast Failure) notes)) in Hin.
    rewrite toasts_map_toast in Hin.
    apply in_map_iff in Hin. destruct Hin as (n & Hn & _). discriminate Hn.
Qed.

Lemma X13_witness :
  In (Success, lit "Объявление успешно создано!")
     (toasts (trace (onSubmit (signed_in accepting) cook (editing cook))))
  /\ exists u created,
      current_user (signed_in accepting) = Some u
      /\ api_jobs (server (signed_in accepting)) (payload_of cook u)
         = Resolved created
      /\ ((forall handler,
              onJobCreated (signed_in accepting) = Some handler ->
              handler created = Normal tt) ->
          toasts (trace (onSubmit (signed_in accepting) cook (editing cook)))
          = [(Success, lit "Объявление успешно создано!")]).
Proof.
  assert (H : In (Success, lit "Объявление успешно создано!")
                 (toasts (trace (onSubmit (signed_in accepting) cook
                                          (editing cook)))))
    by (left; reflexivity).
  split; [exact H|].
  exact (@X13_success_toast_only_when_accepted
           (signed_in accepting) cook (editing cook)
           (lit "Объявление успешно создано!") H).
Defined.

End Notifications.

(** ** The premium panel: checkout and status *)

Section Premium.

Import PremiumButton Shown Sample.

(** X14. When a user is signed in and the service creates the session,
    the purchase action sends one POST carrying the user's id and then
    redirects the page to the URL the service returned; it shows no
    notification and leaves the premium flag alone. *)
Theorem X14_checkout_redirects (e : env) (st : state) (u : user)
        (session : checkout_session) :
  current_user e = Some u ->
  api_checkout (server e) (user_id u) = Resolved session ->
  handleCheckout e st =
  {| outcome := Normal tt;
     final := st;
     trace := [Request
                 (Post (lit "http://localhost:3001/api/payments/create-checkout-session")
                       (CheckoutBody (user_id u)));
               Redirect (url session)] |}.
Proof.
  intros Hu Hr. unfold handleCheckout, user_id_of. rewrite Hu.
  unfold try_catch, axios_post, bind.
  cbn [ret emit_event outcome final trace]. rewrite Hr. reflexivity.
Qed.

Lemma X14_witness :
  current_user (signed_in accepting) = Some alice
  /\ api_checkout (server (signed_in accepting)) (user_id alice)
     = Resolved {| url := lit "https://pay.example/s" |}
  /\ handleCheckout (signed_in accepting) initial =
     {| outcome := Normal tt;
        final := initial;
        trace := [Request
                    (Post (lit "http://localhost:3001/api/payments/create-checkout-session")
                          (CheckoutBody (user_id alice)));
                  Redirect (url {| url := lit "https://pay.example/s" |})] |}.
Proof.
  do 2 (split; [reflexivity|]).
  apply (@X14_checkout_redirects (signed_in accepting) initial alice
                                 {| url := lit "https://pay.example/s" |});
    reflexivity.
Defined.

(** X15. The purchase action never changes the premium flag.  Without a
    signed-in user it sends no request: reading the user's id fails inside
    the [try] and the payment-error notification is shown.  The page is
    redirected only to a URL the service returned for the signed-in user,
    and a run that redirects shows no notification. *)
Theorem X15_checkout_guards (e : env) (st : state) :
  let r := handleCheckout e st in
  final r = st
  /\ (current_user e = None ->
      trace r = [Toast Failure (t e "payment_error")])
  /\ (forall href,
         In (Redirect href) (trace r) ->
         exists u session,
           current_user e = Some u
           /\ api_checkout (server e) (user_id u) = Resolved session
           /\ href = url session
           /\ toasts (trace r) = []).
Proof.
  intros r. subst r. unfold handleCheckout, user_id_of.
  destruct (current_user e) as [u|] eqn:Hu.
  - unfold try_catch, axios_post, bind.
    cbn [ret emit_event outcome final trace].
    destruct (api_checkout (server e) (user_id u)) as [session|ax] eqn:Hr.
    + cbn. split; [reflexivity|]. split; [discriminate|].
      intros href [H|[H|[]]]; [discriminate H|].
      injection H as <-. now exists u, session.
    + cbn. split; [reflexivity|]. split; [discriminate|].
      intros href [H|[H|[]]]; discriminate H.
  - cbn. split; [reflexivity|]. split; [reflexivity|].
    intros href [H|[]]. discriminate H.
Qed.

Lemma X15_witness :
  current_user (signed_out accepting) = None
  /\ let r := handleCheckout (signed_out accepting) initial in
     final r = initial
     /\ trace r = [Toast Failure (t (signed_out accepting) "payment_error")].
Proof.
  pose proof (X15_checkout_guards (signed_out accepting) initial)
    as (Hf & Hn & _).
  split; [reflexivity|]. split; [exact Hf|].
  apply Hn. reflexivity.
Defined.

(** X16. The status fetch sends a request only for a signed-in user, to
    that user's address.  Without a user, or when the fetch fails, the
    premium flag and hence the whole panel stay as they were; right after
    mount this means the purchase action is shown. *)
Theorem X16_status_fetch_keeps_flag_on_failure (e : env) (st : state) :
  let r := fetchUserPremiumStatus e st in
  requests (trace r)
  = match current_user e with
    | Some u => [Get (lit "http://localhost:3001/api/user/" ++ user_id u)]
    | None => []
    end
  /\ (current_user e = None -> trace r = [] /\ final r = st)
  /\ (forall u ax,
         current_user e = Some u ->
         api_user (server e) (user_id u) = Rejected ax ->
         final r = st
         /\ render e (final r) = render e st
         /\ (st = initial ->
             is_purchase_action (sheet_footer (render e (final r))) = true)).
Proof.
  intros r. subst r. unfold fetchUserPremiumStatus.
  destruct (current_user e) as [u|] eqn:Hu.
  - unfold try_catch, axios_get, bind.
    cbn [emit_event outcome final trace].
    destruct (api_user (server e) (user_id u)) as [status|ax] eqn:Hr.
    + cbn. split; [reflexivity|]. split; [discriminate|].
      intros u' ax' H1 H. injection H1 as <-. rewrite Hr in H. discriminate H.
    + cbn. split; [reflexivity|]. split; [discriminate|].
      intros u' ax' _ _. split; [reflexivity|]. split; [reflexivity|].
      now intros ->.
  - cbn. split; [reflexivity|]. split; [now split|].
    intros u ax H. discriminate H.
Qed.

Lemma X16_witness :
  current_user (signed_in (refusing None)) = Some alice
  /\ api_user (server (signed_in (refusing None))) (user_id alice)
     = Rejected (refusal None)
  /\ let r := fetchUserPremiumStatus (signed_in (refusing None)) initial in
     final r = initial
     /\ render (signed_in (refusing None)) (final r)
        = render (signed_in (refusing None)) initial
     /\ (initial = initial ->
         is_purchase_action
           (sheet_footer (render (signed_in (refusing None)) (final r)))
         = true).
Proof.
  do 2 (split; [reflexivity|]).
  apply (proj2 (proj2 (X16_status_fetch_keeps_flag_on_failure
                         (signed_in (refusing None)) initial))
               alice (refusal None));
    reflexivity.
Defined.

End Premium.

(** ** The substring test *)

Section Substring.

Lemma starts_with_iff (s p : jsstring) :
  starts_with s p = true <-> exists post, s = p ++ post.
Proof.
  revert s. induction p as [|c p IH]; intros s.
  - split; [intros _; now exists s|reflexivity].
  - destruct s as [|x s]; cbn [starts_with].
    + split; [discriminate|]. intros (post & H). discriminate H.
    + rewrite andb_true_iff, N.eqb_eq, IH. split.
      * intros (-> & post & ->). now exists post.
      * intros (post & H). injection H as -> ->. split; [reflexivity|].
        now exists post.
Qed.

(** X17. The test by which the catch block recognises the rate-limit and
    quota markers ([errorMessage.includes(marker)]) holds exactly when the
    marker occurs somewhere in the message, that is, when the message is
    some text, the marker, and some text. *)
Theorem X17_includes_iff_occurs (s p : jsstring) :
  includes s p = true <-> exists pre post, s = pre ++ p ++ post.
Proof.
  induction s as [|x s IH].
  - cbn [includes]. rewrite orb_false_r, starts_with_iff. split.
    + intros (post & H). now exists [], post.
    + intros (pre & post & H). symmetry in H.
      apply app_eq_nil in H. destruct H as [-> H].
      exists post. apply app_eq_nil in H. destruct H as [-> ->]. reflexivity.
  - rewrite includes_unfold, orb_true_iff, starts_with_iff, IH. split.
    + intros [(post & H)|(pre & post & H)].
      * now exists [], post.
      * exists (x :: pre), post. now rewrite H.
    + intros (pre & post & H). destruct pre as [|y pre].
      * left. now exists post.
      * right. injection H as -> ->. now exists pre, post.
Qed.

End Substring.
